(** * LineUp column model: CompositeNumberColumn, header renderer, sortBy

    A shallow embedding of the TypeScript sources
    - [model/CompositeNumberColumn.ts]  (module [CompositeNumber]),
    - [ui/HeaderRenderer.ts]            (module [Header]),
    - [lineup.ts]                       (module [LineUp]),
    together with the properties of the column model they implement.

    JavaScript numbers are IEEE 754 binary64 values, which are exactly
    Rocq's primitive floats; the dynamically typed values that flow through
    [getValue] are a small tagged union ([JS.value]). *)

From Stdlib Require Import ZArith List Ascii String Bool.
From Stdlib Require Import Floats.
From stdpp Require Import base option list strings gmap sorting.

Import ListNotations.

Set Warnings "-register-all".

(* ===================================================================== *)
(** ** JavaScript values and the coercions the sources rely on *)
(* ===================================================================== *)

Module JS.

(** The values a column accessor can hand out: [undefined], [null],
    booleans, numbers (binary64, NaN and the infinities included) and
    strings. *)
Inductive value : Type :=
| VUndefined
| VNull
| VBool (b : bool)
| VNumber (n : float)
| VString (s : string).

(** [typeof v === 'number'] *)
Definition typeof_number (v : value) : bool :=
  match v with VNumber _ => true | _ => false end.

(** [typeof v === 'undefined'] *)
Definition typeof_undefined (v : value) : bool :=
  match v with VUndefined => true | _ => false end.

(** [v == null]: loose equality with [null] holds for [null] and
    [undefined] only. *)
Definition loose_eq_null (v : value) : bool :=
  match v with VUndefined | VNull => true | _ => false end.

(** Truthiness of a string: only the empty string is falsy. *)
Definition truthy_string (s : string) : bool :=
  match s with EmptyString => false | String _ _ => true end.

Section Coercions.

(** The two number/string conversions of the language are taken as
    given: [StringToNumber] ("12" gives 12, "abc" gives NaN) and
    [Number::toString]. *)
Variable string_to_number : string -> float.
Variable number_to_string : float -> string.

(** [ToNumber] *)
Definition ToNumber (v : value) : float :=
  match v with
  | VUndefined => nan
  | VNull => 0%float
  | VBool true => 1%float
  | VBool false => 0%float
  | VNumber n => n
  | VString s => string_to_number s
  end.

(** The global [isNaN(v)]: coerce, then test. *)
Definition isNaN (v : value) : bool := is_nan (ToNumber v).

(** [ToString] *)
Definition ToString (v : value) : string :=
  match v with
  | VUndefined => "undefined"
  | VNull => "null"
  | VBool true => "true"
  | VBool false => "false"
  | VNumber n => number_to_string n
  | VString s => s
  end.

(** ['' + v] *)
Definition concat_empty (v : value) : string := "" +:+ ToString v.

End Coercions.

(** [Math.max] of two numbers: NaN is contagious, and of the two zeros
    the positive one is the larger. *)
Definition max2 (a b : float) : float :=
  if is_nan a || is_nan b then nan
  else if (a <? b)%float then b
  else if (b <? a)%float then a
  else if get_sign a then b else a.

(** [Math.max.apply(Math, xs)]: the fold starts from [-Infinity], which
    is therefore the result for no arguments. *)
Definition Math_max (xs : list float) : float :=
  fold_left max2 xs neg_infinity.

(** NaN among the specification-level binary floats. *)
Definition sf_is_nan (x : spec_float) : bool :=
  match x with S754_nan => true | _ => false end.

End JS.

(* ===================================================================== *)
(** ** model/CompositeNumberColumn.ts *)
(* ===================================================================== *)

Module CompositeNumber.
Import JS.

(** [ICompositeNumberDesc extends IColumnDesc]: the two optional
    properties declared in the source; [None] is an absent ([undefined])
    property.  [desc_type] and [desc_label] stand for the inherited
    [IColumnDesc] part. *)
Record ICompositeNumberDesc : Type := mkDesc {
  desc_type : string;
  desc_label : string;
  desc_numberFormat : option string;
  desc_missingValue : option float
}.

Section Model.

(** Rows are opaque ([row: any]). *)
Variable Row : Type.
(** The child columns are columns of arbitrary classes. *)
Variable Child : Type.
(** References to descriptors, as produced by [toDescRef]. *)
Variable DescRef : Type.

(** d3's [format(specifier)]. *)
Variable format : string -> float -> string.
Variable string_to_number : string -> float.
Variable number_to_string : float -> string.

(** Modelled from the spec: the state inherited from [Column] and
    [CompositeColumn] (neither is under src): identifier, descriptor,
    width, the compressed / filtered / collapsed flags, the loaded flag
    and the ordered children.  The last two fields are the ones the
    class itself declares, [missingValue] with its declared type
    [number]. *)
Record CompositeNumberColumn : Type := mkColumn {
  id : string;
  desc : ICompositeNumberDesc;
  width : float;
  compressed : bool;
  filtered : bool;
  collapsed : bool;
  loaded : bool;
  children : list Child;
  missingValue : float;
  numberFormat : float -> string
}.

Definition set_missingValue (m : float) (c : CompositeNumberColumn) :=
  mkColumn (id c) (desc c) (width c) (compressed c) (filtered c)
           (collapsed c) (loaded c) (children c) m (numberFormat c).

Definition set_numberFormat (f : float -> string) (c : CompositeNumberColumn) :=
  mkColumn (id c) (desc c) (width c) (compressed c) (filtered c)
           (collapsed c) (loaded c) (children c) (missingValue c) f.

(** Modelled from the spec: [setLoaded], the setter of the loaded flag
    of lazily populated columns (used by demo/lazy_loaded_test.html). *)
Definition setLoaded (l : bool) (c : CompositeNumberColumn) :=
  mkColumn (id c) (desc c) (width c) (compressed c) (filtered c)
           (collapsed c) l (children c) (missingValue c) (numberFormat c).

(** Modelled from the spec: [isLoaded], inherited, reads the flag. *)
Definition isLoaded (c : CompositeNumberColumn) : bool := loaded c.

(** Modelled from the spec: [super(id, desc)], the inherited
    constructor: a fresh column has its identifier and descriptor, the
    default width, no flag set, no children, and is loaded. *)
Variable default_width : float.

Definition super_new (i : string) (d : ICompositeNumberDesc)
  : CompositeNumberColumn :=
  mkColumn i d default_width false false false true []
           0%float (format ".3n").

(** The constructor: field initialisers [missingValue = 0] and
    [numberFormat = format('.3n')], then the two overrides from the
    descriptor ([if (desc.numberFormat)] is a truthiness test,
    [desc.missingValue !== undefined] a presence test). *)
Definition new (i : string) (d : ICompositeNumberDesc)
  : CompositeNumberColumn :=
  let c := super_new i d in
  let c :=
    match desc_numberFormat d with
    | Some s => if truthy_string s then set_numberFormat (format s) c else c
    | None => c
    end in
  match desc_missingValue d with
  | Some m => set_missingValue m c
  | None => c
  end.

(** The plain record exchanged by [dump] and [restore]
    ([dump: any]).  An optional field is [None] when the property is
    absent from the record.  Modelled from the spec: the inherited
    part of the layout (identifier, descriptor reference, width, the
    three flags, child dumps in order); [dump_missingValue] and
    [dump_numberFormat] are the two properties this class reads. *)
Inductive Dump : Type := mkDump {
  dump_id : string;
  dump_desc : DescRef;
  dump_width : float;
  dump_compressed : bool;
  dump_filtered : bool;
  dump_collapsed : bool;
  dump_missingValue : option float;
  dump_numberFormat : option string;
  dump_children : list Dump
}.

(** [r.missingValue = v] on a record. *)
Definition put_missingValue (m : float) (r : Dump) : Dump :=
  mkDump (dump_id r) (dump_desc r) (dump_width r) (dump_compressed r)
         (dump_filtered r) (dump_collapsed r) (Some m)
         (dump_numberFormat r) (dump_children r).

(** The children's own [dump] methods. *)
Variable child_dump : Child -> (ICompositeNumberDesc -> DescRef) -> Dump.

(** Modelled from the spec: [super.dump(toDescRef)] of [Column] and
    [CompositeColumn] (not under src): identifier, descriptor
    reference, width, flags and the child dumps in order; none of the
    extras of this class. *)
Definition super_dump (c : CompositeNumberColumn)
           (toDescRef : ICompositeNumberDesc -> DescRef) : Dump :=
  mkDump (id c) (toDescRef (desc c)) (width c) (compressed c)
         (filtered c) (collapsed c) None None
         (map (fun ch => child_dump ch toDescRef) (children c)).

Definition dump (c : CompositeNumberColumn)
           (toDescRef : ICompositeNumberDesc -> DescRef) : Dump :=
  let r := super_dump c toDescRef in
  put_missingValue (missingValue c) r.

(** Modelled from the spec: [super.restore(dump, factory)] of
    [CompositeColumn] and [Column] (not under src): the width and the
    flags are taken from the record and every child record is handed
    to the factory, the columns it returns being pushed in order ([None]
    is the factory's [null]). *)
Definition super_restore (c : CompositeNumberColumn) (d : Dump)
           (factory : Dump -> option Child) : CompositeNumberColumn :=
  mkColumn (id c) (desc c) (dump_width d) (dump_compressed d)
           (dump_filtered d) (dump_collapsed d) (loaded c)
           (children c ++ omap factory (dump_children d))
           (missingValue c) (numberFormat c).

Definition restore (c : CompositeNumberColumn) (d : Dump)
           (factory : Dump -> option Child) : CompositeNumberColumn :=
  let c :=
    match dump_missingValue d with
    | Some m => set_missingValue m c
    | None => c
    end in
  let c :=
    match dump_numberFormat d with
    | Some s => if truthy_string s then set_numberFormat (format s) c else c
    | None => c
    end in
  super_restore c d factory.

(** The [typeof(v) === 'undefined' || v == null || isNaN(v)] test of
    [getValue]. *)
Definition is_missing (v : value) : bool :=
  typeof_undefined v || loose_eq_null v || isNaN string_to_number v.

(** A value a numeric comparator can take as an ordinary number:
    neither [undefined] nor NaN (after the numeric coercion). *)
Definition ordinary (v : value) : bool :=
  negb (typeof_undefined v) && negb (isNaN string_to_number v).

(** The order a comparator induces: [x] is not after [y] when the
    comparison is not positive. *)
Definition not_after (cmp : value -> value -> float) (x y : value) : Prop :=
  (cmp x y <=? 0)%float = true.

(** [protected compute(row, index) { return NaN; }] *)
Definition compute_base (c : CompositeNumberColumn) (row : Row) (index : nat)
  : value := VNumber nan.

Section Methods.

(** [this.compute]: the reduction is a protected method that the
    concrete column classes override; the accessors below are stated
    for whichever implementation is dispatched to. *)
Variable compute : CompositeNumberColumn -> Row -> nat -> value.

Definition getValue (c : CompositeNumberColumn) (row : Row) (index : nat)
  : value :=
  if negb (isLoaded c) then VNull
  else
    let v := compute c row index in
    if is_missing v then VNumber (missingValue c) else v.

Definition getLabel (c : CompositeNumberColumn) (row : Row) (index : nat)
  : string :=
  if negb (isLoaded c) then ""
  else
    let v := getValue c row index in
    concat_empty number_to_string
      (match v with
       | VNumber n => VString (numberFormat c n)
       | _ => v
       end).

Definition getNumber (c : CompositeNumberColumn) (row : Row) (index : nat)
  : value := getValue c row index.

Definition getRawNumber (c : CompositeNumberColumn) (row : Row) (index : nat)
  : value := getNumber c row index.

(** [numberCompare] lives in model/NumberColumn.ts, which is not
    under src: the comparator is a parameter. *)
Variable numberCompare : value -> value -> float.

Definition compare (c : CompositeNumberColumn) (a b : Row)
           (aIndex bIndex : nat) : float :=
  numberCompare (getValue c a aIndex) (getValue c b bIndex).

End Methods.

End Model.

Arguments mkColumn {Child}.
Arguments id {Child}.
Arguments desc {Child}.
Arguments width {Child}.
Arguments compressed {Child}.
Arguments filtered {Child}.
Arguments collapsed {Child}.
Arguments loaded {Child}.
Arguments children {Child}.
Arguments missingValue {Child}.
Arguments numberFormat {Child}.
Arguments isLoaded {Child}.
Arguments setLoaded {Child}.
Arguments set_missingValue {Child}.
Arguments set_numberFormat {Child}.
Arguments mkDump {DescRef}.
Arguments dump_id {DescRef}.
Arguments dump_desc {DescRef}.
Arguments dump_width {DescRef}.
Arguments dump_compressed {DescRef}.
Arguments dump_filtered {DescRef}.
Arguments dump_collapsed {DescRef}.
Arguments dump_missingValue {DescRef}.
Arguments dump_numberFormat {DescRef}.
Arguments dump_children {DescRef}.
Arguments compute_base {Row Child}.
Arguments super_dump {Child DescRef}.
Arguments super_restore {Child DescRef}.
Arguments getValue {Row Child}.
Arguments getLabel {Row Child}.
Arguments getNumber {Row Child}.
Arguments getRawNumber {Row Child}.
Arguments compare {Row Child}.
Arguments new {Child}.
Arguments dump {Child DescRef}.
Arguments restore {Child DescRef}.

End CompositeNumber.

(* ===================================================================== *)
(** ** ui/HeaderRenderer.ts *)
(* ===================================================================== *)

Module Header.
Import JS.

(** What the header renderer asks of a column: its id, the outcome of
    the run-time class tests ([isMultiLevelColumn], [instanceof
    NumberColumn], [isCategoricalColumn]; the tested classes are not
    under src, so the outcomes are fields), the collapsed, compressed and
    hidden flags, and the children of a multi-level column. *)
Inductive Column : Type := mkCol {
  col_id : string;
  isMultiLevelColumn : bool;
  getCollapsed : bool;
  getCompressed : bool;
  isNumberColumnInstance : bool;
  isCategoricalColumn : bool;
  isHidden : bool;
  col_children : list Column
}.

Fixpoint countMultiLevel (c : Column) : float :=
  match c with
  | mkCol _ multi collapsed compressed _ _ _ children =>
      if multi && negb collapsed && negb compressed
      then (1 + Math_max (map countMultiLevel children))%float
      else 1%float
  end.

(** A pending statistics result: the promise [data.stats(order).stats(col)]
    or [data.stats(order).hist(col)], identified by what it was asked
    for. *)
Inductive Handle : Type :=
| StatsOf (order : list nat) (col : string)
| HistOf (order : list nat) (col : string).

(** A ranking as read by [updateHist]: [getOrder()] ([None] is [null])
    and [flatColumns]. *)
Record Ranking : Type := mkRanking {
  getOrder : option (list nat);
  flatColumns : list Column
}.

(** The part of the renderer's state that the cache depends on:
    [options.histograms], the rankings of the data provider
    ([this.data.getRankings()]), the cache itself (a
    [Map<string, Promise>] whose values may be [null]) and whether the
    order-changed listener is registered on the provider. *)
Record HeaderRenderer : Type := mkRenderer {
  histograms : bool;
  getRankings : list Ranking;
  histCache : gmap string (option Handle);
  orderListener : bool
}.

(** [this.histCache.set(col.id, histo === null ? null : histo.stats(col))] *)
Definition set_stats (histo : option (list nat)) (m : gmap string (option Handle))
           (col : Column) : gmap string (option Handle) :=
  <[col_id col := (fun o => StatsOf o (col_id col)) <$> histo]> m.

(** [this.histCache.set(col.id, histo === null ? null : histo.hist(col))] *)
Definition set_hist (histo : option (list nat)) (m : gmap string (option Handle))
           (col : Column) : gmap string (option Handle) :=
  <[col_id col := (fun o => HistOf o (col_id col)) <$> histo]> m.

(** The body of the [rankings.forEach] callback of [updateHist]. *)
Definition updateHist_ranking (m : gmap string (option Handle)) (ranking : Ranking)
  : gmap string (option Handle) :=
  let order := getOrder ranking in
  let cols := flatColumns ranking in
  let histo := order in
  let m :=
    fold_left (set_stats histo)
      (filter (fun d => isNumberColumnInstance d && negb (isHidden d) = true) cols) m in
  fold_left (set_hist histo)
    (filter (fun d => isCategoricalColumn d && negb (isHidden d) = true) cols) m.

(** The same callback as the sequence of [histCache.set(key, value)]
    calls it makes, in order: first the visible [NumberColumn]s, then the
    visible categorical columns. *)
Definition stats_entry (ranking : Ranking) (col : Column) : option Handle :=
  (fun o => StatsOf o (col_id col)) <$> getOrder ranking.

Definition hist_entry (ranking : Ranking) (col : Column) : option Handle :=
  (fun o => HistOf o (col_id col)) <$> getOrder ranking.

Definition sets_of_ranking (ranking : Ranking) : list (string * option Handle) :=
  map (fun col => (col_id col, stats_entry ranking col))
      (filter (fun d => isNumberColumnInstance d && negb (isHidden d) = true)
              (flatColumns ranking))
  ++ map (fun col => (col_id col, hist_entry ranking col))
      (filter (fun d => isCategoricalColumn d && negb (isHidden d) = true)
              (flatColumns ranking)).

Definition sets_of_rankings (rankings : list Ranking)
  : list (string * option Handle) :=
  concat (map sets_of_ranking rankings).

Definition apply_sets (sets : list (string * option Handle))
           (m : gmap string (option Handle)) : gmap string (option Handle) :=
  fold_left (fun m kv => <[kv.1 := kv.2]> m) sets m.

(** The value of the last [set] under a key, if there is one. *)
Fixpoint last_set (k : string) (sets : list (string * option Handle))
  : option (option Handle) :=
  match sets with
  | [] => None
  | (k', v) :: rest =>
      match last_set k rest with
      | Some v' => Some v'
      | None => if decide (k' = k) then Some v else None
      end
  end.

(** A column whose entry [updateHist] writes: not hidden, and a
    [NumberColumn] instance or categorical. *)
Definition has_histogram (col : Column) : bool :=
  negb (isHidden col) && (isNumberColumnInstance col || isCategoricalColumn col).

Definition with_cache (m : gmap string (option Handle)) (r : HeaderRenderer) :=
  mkRenderer (histograms r) (getRankings r) m (orderListener r).

Definition updateHist (r : HeaderRenderer) : HeaderRenderer :=
  with_cache (fold_left updateHist_ranking (getRankings r) (histCache r)) r.

(** The cache-relevant step of [update()]: an empty cache is filled when
    histograms are on and there is a ranking. *)
Definition update (r : HeaderRenderer) : HeaderRenderer :=
  if histograms r && bool_decide (size (histCache r) = 0)
     && negb (bool_decide (length (getRankings r) = 0))
  then updateHist r else r.

(** [changeDataStorage(data)]: the provider is replaced and the
    order-changed listener is registered only [if (this.options.histograms)]. *)
Definition changeDataStorage (rankings : list Ranking) (r : HeaderRenderer) :=
  mkRenderer (histograms r) rankings (histCache r) (histograms r).

(** The constructor: options merged over the defaults
    ([histograms: false] unless given), an empty cache, then
    [changeDataStorage(data)]. *)
Definition new (rankings : list Ranking) (opt_histograms : option bool)
  : HeaderRenderer :=
  changeDataStorage rankings
    (mkRenderer (default false opt_histograms) [] ∅ false).

(** The provider fires [EVENT_ORDER_CHANGED]: the registered listener, if
    any, runs [this.updateHist(); this.update();]. *)
Definition on_order_changed (r : HeaderRenderer) : HeaderRenderer :=
  if orderListener r then update (updateHist r) else r.

(** The provider's rankings change under the renderer (the rankings are
    shared, mutable objects). *)
Definition with_rankings (rankings : list Ranking) (r : HeaderRenderer) :=
  mkRenderer (histograms r) rankings (histCache r) (orderListener r).

(** The states a renderer gets into: it is constructed, and from then on
    its provider is replaced, the rankings of the provider change, the
    provider fires an order change, or [update()] is called.  The options
    are fixed by the constructor. *)
Inductive Reachable : HeaderRenderer -> Prop :=
| reach_new rankings opt_histograms :
    Reachable (new rankings opt_histograms)
| reach_changeDataStorage rankings r :
    Reachable r -> Reachable (changeDataStorage rankings r)
| reach_with_rankings rankings r :
    Reachable r -> Reachable (with_rankings rankings r)
| reach_order_changed r :
    Reachable r -> Reachable (on_order_changed r)
| reach_update r :
    Reachable r -> Reachable (update r).

(** *** Tooltips, column resizing and the selection in the histograms *)

(** The line feed of ['\n']. *)
Definition newline : string := String "010"%char EmptyString.

(** [toFullTooltip(col)] for [col: {label: string, description?: string}];
    an absent description ([undefined], and [null] alike under [!= null])
    is [None]. *)
Definition toFullTooltip (label : string) (description : option string)
  : string :=
  let base := label in
  match description with
  | Some d => if negb (String.eqb d "") then base +:+ (newline +:+ d) else base
  | None => base
  end.

(** The ['drag'] callback of [dragHandler]: the width handed to
    [d.setWidth] for a mouse position [d3mouse(parent)[0]]. *)
Definition drag_newValue (mouse_x : float) : float :=
  Math_max [mouse_x; 2%float].

(** [Math.max(...columns.map(countMultiLevel))] of [update()]: the
    number of header levels for the flattened columns. *)
Definition header_levels (columns : list Column) : float :=
  Math_max (map countMultiLevel columns).

Section Selection.

(** [bar.dataset.x] is a string; comparing it with a number coerces it. *)
Variable string_to_number : string -> float.

(** [bar.dataset.x > v] *)
Definition bar_above (v : float) (dataset_x : string) : bool :=
  (v <? string_to_number dataset_x)%float.

(** The loop [for (let i = 1; i < bars.length; ++i)] of [drawSelection],
    entered at index [i] with [rest] the bars from [i] on: the index of
    the bar that gets the class [selected], if the loop reaches one. *)
Fixpoint selectBin_from (v : float) (i : nat) (rest : list string)
  : option nat :=
  match rest with
  | [] => None
  | bar :: rest' =>
      if bar_above v bar then Some (i - 1)
      else
        match rest' with
        | [] => Some i
        | _ :: _ => selectBin_from v (S i) rest'
        end
  end.

Definition selectBin (v : float) (bars : list string) : option nat :=
  match bars with
  | [] => None
  | _ :: rest => selectBin_from v 1 rest
  end.

(** The bars of one number column that end up selected for the values
    of the selected rows. *)
Definition selectedBars (bars : list string) (values : list float) : gset nat :=
  list_to_set (omap (fun v => selectBin v bars) values).

End Selection.

End Header.

(* ===================================================================== *)
(** ** lineup.ts *)
(* ===================================================================== *)

Module LineUp.

Section SortBy.

(** The columns and the state of the data provider (its rankings with
    their sort criteria) are the provider's business. *)
Variable Column : Type.
Variable DataProvider : Type.

(** [column: string | ((col: Column) => boolean)] *)
Definition Selector : Type := (string + (Column -> bool))%type.

(** [this.data.find(column)]: provider/ADataProvider.ts is not under
    src; the result is a column or [null] ([None]). *)
Variable find : DataProvider -> Selector -> option Column.

(** [col.sortByMe(ascending)]: model/Column.ts is not under src; the
    call acts on the provider's state. *)
Variable sortByMe : Column -> bool -> DataProvider -> DataProvider.

(** [sortBy(column, ascending = false)]: the boolean result and the
    provider's state afterwards.  An omitted argument is [None]. *)
Definition sortBy (data : DataProvider) (column : Selector)
           (ascending : option bool) : bool * DataProvider :=
  let ascending := default false ascending in
  let col := find data column in
  let data' :=
    match col with
    | Some c => sortByMe c ascending data
    | None => data
    end in
  (bool_decide (col <> None), data').

End SortBy.

Arguments sortBy {Column DataProvider}.

(** *** deriveColors *)

(** The part of [IColumnDesc] that [deriveColors] touches: the type tag
    and the colour ([None] is [undefined]); the label stands for the
    rest. *)
Record IColumnDesc : Type := mkColumnDesc {
  cd_type : string;
  cd_label : string;
  cd_color : option string
}.

(** [col.color = c] *)
Definition set_color (c : option string) (col : IColumnDesc) : IColumnDesc :=
  mkColumnDesc (cd_type col) (cd_label col) c.

(** [switch (col.type) { case 'number': ... }] *)
Definition is_number_desc (col : IColumnDesc) : bool :=
  String.eqb (cd_type col) "number".

(** The [columns.forEach] of [deriveColors] with the colours that are
    left: [colors.shift()] takes the first and is [undefined] once the
    array is empty. *)
Fixpoint deriveColors_from (colors : list string) (columns : list IColumnDesc)
  : list IColumnDesc :=
  match columns with
  | [] => []
  | col :: rest =>
      if is_number_desc col
      then set_color (head colors) col :: deriveColors_from (tail colors) rest
      else col :: deriveColors_from colors rest
  end.

(** [deriveColors(columns)]; [category10] is the range of d3's
    [scale.category10()], copied by [slice()] on every call. *)
Definition deriveColors (category10 : list string) (columns : list IColumnDesc)
  : list IColumnDesc :=
  deriveColors_from category10 columns.

(** How many [number] columns stand before position [i]: how many
    colours have been shifted off when the loop gets there. *)
Definition numbers_before (i : nat) (columns : list IColumnDesc) : nat :=
  length (List.filter is_number_desc (take i columns)).

(** *** jumpToNearest *)

(** [order.indexOf(d)]: the first position of [d], or -1. *)
Fixpoint indexOf (d : nat) (order : list nat) : Z :=
  match order with
  | [] => (-1)%Z
  | x :: rest =>
      if decide (x = d) then 0%Z
      else let r := indexOf d rest in
           if (r <? 0)%Z then (-1)%Z else (r + 1)%Z
  end.

(** [order[i]] for an integer [i]: [undefined] ([None]) out of range, in
    particular at -1. *)
Definition at_index (order : list nat) (i : Z) : option nat :=
  if (i <? 0)%Z then None else order !! Z.to_nat i.

(** [.sort((a, b) => a - b)] on integers: the ascending arrangement,
    which is the same whatever the sorting algorithm. *)
Definition sort_ascending (l : list Z) : list Z := merge_sort Z.le l.

(** What [jumpToNearest] asks of the renderer: [scrollIntoView(length,
    index)] and, 100 ms later, [fakeHover(dataIndex)]. *)
Record Jump : Type := mkJump {
  scroll_length : nat;
  scroll_index : option Z;
  hover_dataIndex : option nat
}.

(** How a call of [jumpToNearest] ends: the early [return], a
    [TypeError] ([order.indexOf] on an order that is [null]), or the two
    requests to the renderer. *)
Inductive JumpResult : Type :=
| NoJump
| ThrowsTypeError
| Jumped (jump : Jump).

(** [jumpToNearest(dataIndices)]; [rankings] are the results of
    [getOrder()] for [this.data.getRankings()], [None] being an order
    that is [null].  There is no test of the order: the first
    [order.indexOf(d)] throws on [null], before the renderer is
    called. *)
Definition jumpToNearest (rankings : list (option (list nat)))
           (dataIndices : list nat) : JumpResult :=
  let ranking := head rankings in
  match dataIndices, ranking with
  | [], _ => NoJump
  | _, None => NoJump
  | _ :: _, Some None => ThrowsTypeError
  | _ :: _, Some (Some order) =>
      let indices := sort_ascending (map (fun d => indexOf d order) dataIndices) in
      Jumped (mkJump (length order) (head indices)
                     (head indices ≫= at_index order))
  end.

(** *** deriveColors on shared descriptor objects *)

(** The descriptors are objects that [deriveColors] changes in place,
    and an array may hold the same object more than once: [heap] maps
    the objects' addresses to their fields and [columns] is the array of
    addresses.  The result is the heap after the loop; the array itself
    is returned as it is. *)
Fixpoint deriveColors_heap (colors : list string) (columns : list nat)
         (heap : gmap nat IColumnDesc) : gmap nat IColumnDesc :=
  match columns with
  | [] => heap
  | r :: rest =>
      match heap !! r with
      | Some col =>
          if is_number_desc col
          then deriveColors_heap (tail colors) rest
                                 (<[r := set_color (head colors) col]> heap)
          else deriveColors_heap colors rest heap
      | None => deriveColors_heap colors rest heap
      end
  end.

(** Whether the object at an address is of type [number]. *)
Definition is_number_at (heap : gmap nat IColumnDesc) (r : nat) : bool :=
  match heap !! r with
  | Some col => is_number_desc col
  | None => false
  end.

(** How many of the first [i] entries of the array are of type
    [number]. *)
Fixpoint numbers_before_at (heap : gmap nat IColumnDesc) (i : nat)
         (columns : list nat) : nat :=
  match i, columns with
  | S i', r :: rest =>
      (if is_number_at heap r then 1 else 0) + numbers_before_at heap i' rest
  | _, _ => 0
  end.

(** *** update *)

(** The events [update] and its listener fire. *)
Inductive Fired : Type := UPDATE_START | UPDATE_FINISHED.

(** The state [update] works on: the flag [isUpdateInitialized] and the
    [renderFinished.main] listener registered on the renderer, which is
    a closure over its counter [waitForBodyRenderer] ([None]: no listener
    yet).  Registering under the same name replaces the listener. *)
Record UpdateState : Type := mkUpdateState {
  isUpdateInitialized : bool;
  waitForBodyRenderer : option Z
}.

Definition initial : UpdateState := mkUpdateState false None.

(** [update()] *)
Definition update (s : UpdateState) : UpdateState * list Fired :=
  let wait := if isUpdateInitialized s then 1%Z else 3%Z in
  (mkUpdateState true (Some wait), [UPDATE_START]).

(** The renderer fires [renderFinished]: the listener runs. *)
Definition renderFinished (s : UpdateState) : UpdateState * list Fired :=
  match waitForBodyRenderer s with
  | None => (s, [])
  | Some n =>
      let n := (n - 1)%Z in
      (mkUpdateState (isUpdateInitialized s) (Some n),
       if (n =? 0)%Z then [UPDATE_FINISHED] else [])
  end.

(** [k] [renderFinished] events in a row, with everything they fire. *)
Fixpoint renderFinished_times (k : nat) (s : UpdateState)
  : UpdateState * list Fired :=
  match k with
  | O => (s, [])
  | S k' =>
      let (s1, f1) := renderFinished s in
      let (s2, f2) := renderFinished_times k' s1 in
      (s2, f1 ++ f2)
  end.

End LineUp.

(* ===================================================================== *)
(** ** A concrete setting for the examples *)
(* ===================================================================== *)

Module Samples.
Import JS CompositeNumber.

(** Rows are objects: maps from attribute names to values, such as the
    rows [{a: 10}] and [{a: NaN}] of demo/lazy_loaded_test.html. *)
Definition Row : Type := gmap string value.

Definition row_a10 : Row := {[ "a" := VNumber 10%float ]}.
Definition row_aNaN : Row := {[ "a" := VNumber nan ]}.
Definition row_atrue : Row := {[ "a" := VBool true ]}.
Definition row_empty : Row := ∅.

(** The children of the example columns are named by their ids. *)
Definition Child : Type := string.
Definition DescRef : Type := string.

(** Stand-ins for the conversions of the language and for d3's [format],
    precise enough for the examples: the formatter keeps its specifier
    and tells a zero from another number. *)
Definition string_to_number (s : string) : float :=
  match s with
  | EmptyString => 0%float
  | "1" => 1%float
  | _ => nan
  end.

Definition number_to_string (n : float) : string :=
  if is_nan n then "NaN" else if (n =? 0)%float then "0" else "#".

Definition format (specifier : string) (n : float) : string :=
  specifier +:+ ":" +:+ number_to_string n.

Definition toDescRef (d : ICompositeNumberDesc) : DescRef := desc_type d.

Definition child_dump (ch : Child) (toDescRef : ICompositeNumberDesc -> DescRef)
  : Dump DescRef :=
  mkDump ch (toDescRef (mkDesc "number" ch None None)) 100%float
         false false false None None [].

Definition factory (d : Dump DescRef) : option Child := Some (dump_id d).

(** An overriding reduction for the examples: the value of attribute [a]
    of the row, whatever it is ([undefined] when the row has none). *)
Definition compute_a (c : CompositeNumberColumn Child) (row : Row) (index : nat)
  : value := default VUndefined (row !! "a").

Definition desc_plain : ICompositeNumberDesc := mkDesc "composite" "C" None None.
Definition desc_f1 : ICompositeNumberDesc :=
  mkDesc "composite" "C" (Some ".1f") None.
Definition desc_nan : ICompositeNumberDesc :=
  mkDesc "composite" "C" None (Some nan).
Definition desc_mv7 : ICompositeNumberDesc :=
  mkDesc "composite" "C" None (Some 7%float).

Definition column (d : ICompositeNumberDesc) : CompositeNumberColumn Child :=
  new format 100%float "c1" d.

(** A record that carries a number format, as [restore] accepts it. *)
Definition record_f1 : Dump DescRef :=
  mkDump "c1" "composite" 100%float false false false None (Some ".1f") [].

(** A comparator for the examples: the sign of the comparison of the two
    operands as numbers. *)
Definition numberCompare (x y : value) : float :=
  let a := ToNumber string_to_number x in
  let b := ToNumber string_to_number y in
  if (a <? b)%float then (-1)%float
  else if (b <? a)%float then 1%float
  else 0%float.

(** *** Columns and rankings for the header renderer *)

Definition leaf (i : string) (number categorical hidden : bool) : Header.Column :=
  Header.mkCol i false false false number categorical hidden [].

Definition stack (i : string) (collapsed compressed : bool)
           (children : list Header.Column) : Header.Column :=
  Header.mkCol i true collapsed compressed false false false children.

Definition col_n : Header.Column := leaf "n" true false false.
Definition col_c : Header.Column := leaf "c" false true false.
Definition col_h : Header.Column := leaf "h" true false true.
Definition col_s : Header.Column := leaf "s" false false false.

(** A stack of a leaf and a nested stack: three header levels when
    everything is expanded. *)
Definition stack_deep (collapsed compressed : bool) : Header.Column :=
  stack "outer" collapsed compressed
        [col_n; stack "inner" false false [col_n; col_c]].

Definition ranking1 : Header.Ranking :=
  Header.mkRanking (Some [1; 2; 0]%nat) [col_n; col_c; col_h; col_s].

Definition ranking_unordered : Header.Ranking :=
  Header.mkRanking None [col_n].

(** *** A data provider for [sortBy] *)

(** Columns are named by their ids; a ranking has its columns and its
    sort criterion (column and direction, or none). *)
Record SRanking : Type := mkSRanking {
  r_columns : list string;
  r_criterion : option (string * bool)
}.

Definition Provider : Type := list SRanking.

Definition matches (sel : LineUp.Selector string) (col : string) : bool :=
  match sel with
  | inl i => bool_decide (col = i)
  | inr f => f col
  end.

(** The first matching column of the first ranking that has one. *)
Definition find (p : Provider) (sel : LineUp.Selector string) : option string :=
  head (List.filter (matches sel) (concat (map r_columns p))).

(** Modelled from the spec: [sortByMe] replaces the criterion of the
    ranking that owns the column. *)
Definition sortByMe (col : string) (ascending : bool) (p : Provider) : Provider :=
  map (fun r => if bool_decide (col ∈ r_columns r)
                then mkSRanking (r_columns r) (Some (col, ascending))
                else r) p.

Definition provider1 : Provider := [mkSRanking ["rank"; "a"; "b"] None].

(** *** Histogram bars, column descriptions *)

(** Bin starts as they stand in the [data-x] attributes; for the
    examples a one-digit reader of such attributes. *)
Definition bars4 : list string := ["0"; "2"; "4"; "6"].

Definition digit_to_number (s : string) : float :=
  match s with
  | "0" => 0%float
  | "2" => 2%float
  | "4" => 4%float
  | "6" => 6%float
  | _ => nan
  end.

(** d3's [category10] range. *)
Definition category10 : list string :=
  ["#1f77b4"; "#ff7f0e"; "#2ca02c"; "#d62728"; "#9467bd";
   "#8c564b"; "#e377c2"; "#7f7f7f"; "#bcbd22"; "#17becf"].

(** Three descriptor objects at addresses 0, 1, 2. *)
Definition heap3 : gmap nat LineUp.IColumnDesc :=
  {[ 0 := LineUp.mkColumnDesc "string" "name" None;
     1 := LineUp.mkColumnDesc "number" "a" (Some "red");
     2 := LineUp.mkColumnDesc "number" "b" None ]}.

(** A renderer with histograms on whose cache was filled by an order
    change, after which the ranking has lost its order. *)
Definition renderer_order_lost : Header.HeaderRenderer :=
  Header.with_rankings [ranking_unordered]
    (Header.on_order_changed (Header.new [ranking1] (Some true))).

Definition descs3 : list LineUp.IColumnDesc :=
  [LineUp.mkColumnDesc "string" "name" None;
   LineUp.mkColumnDesc "number" "a" (Some "red");
   LineUp.mkColumnDesc "number" "b" None].

End Samples.

(* ===================================================================== *)
(** ** Properties of CompositeNumberColumn *)
(* ===================================================================== *)

Section CompositeNumberFacts.
Import JS CompositeNumber.

Context {Row Child DescRef : Type}.
Variable format : string -> float -> string.
Variable string_to_number : string -> float.
Variable number_to_string : float -> string.
Variable default_width : float.
Variable compute : CompositeNumberColumn Child -> Row -> nat -> value.

Local Abbreviation is_missing := (CompositeNumber.is_missing string_to_number).
Local Abbreviation getValue := (CompositeNumber.getValue string_to_number compute).
Local Abbreviation getLabel :=
  (CompositeNumber.getLabel string_to_number number_to_string compute).
Local Abbreviation getNumber := (CompositeNumber.getNumber string_to_number compute).
Local Abbreviation getRawNumber :=
  (CompositeNumber.getRawNumber string_to_number compute).
Local Abbreviation new :=
  (CompositeNumber.new (Child:=Child) format default_width).

(** *** The missing test, case by case *)

Lemma is_missing_undefined : is_missing VUndefined = true.
Proof. reflexivity. Qed.

Lemma is_missing_null : is_missing VNull = true.
Proof. reflexivity. Qed.

Lemma is_missing_number n : is_missing (VNumber n) = is_nan n.
Proof. reflexivity. Qed.

Lemma is_missing_bool b : is_missing (VBool b) = false.
Proof. destruct b; reflexivity. Qed.

Lemma is_missing_string s : is_missing (VString s) = is_nan (string_to_number s).
Proof. reflexivity. Qed.

(** *** The two branches of [getValue] on a loaded column *)

Lemma getValue_loaded c row index :
  isLoaded c = true ->
  getValue c row index =
  if is_missing (compute c row index) then VNumber (missingValue c)
  else compute c row index.
Proof. intros Hl. unfold CompositeNumber.getValue. now rewrite Hl. Qed.

Lemma getValue_unloaded c row index :
  isLoaded c = false -> getValue c row index = VNull.
Proof. intros Hl. unfold CompositeNumber.getValue. now rewrite Hl. Qed.

(** *** The constructor *)

Lemma new_missingValue i d :
  missingValue (new i d) = default 0%float (desc_missingValue d).
Proof.
  unfold CompositeNumber.new.
  destruct (desc_missingValue d); simpl;
    destruct (desc_numberFormat d) as [s|]; try destruct (truthy_string s);
    reflexivity.
Qed.

Lemma new_numberFormat i d :
  numberFormat (new i d) =
  match desc_numberFormat d with
  | Some s => if truthy_string s then format s else format ".3n"
  | None => format ".3n"
  end.
Proof.
  unfold CompositeNumber.new.
  destruct (desc_missingValue d); simpl;
    destruct (desc_numberFormat d) as [s|]; try destruct (truthy_string s);
    reflexivity.
Qed.

Lemma new_isLoaded i d : isLoaded (new i d) = true.
Proof.
  unfold CompositeNumber.new.
  destruct (desc_missingValue d); simpl;
    destruct (desc_numberFormat d) as [s|]; try destruct (truthy_string s);
    reflexivity.
Qed.

(** C10: [getNumber] and [getRawNumber] return exactly what [getValue]
    returns, for every column, row and row index. *)
Theorem getNumber_getRawNumber_are_getValue c row index :
  getNumber c row index = getValue c row index /\
  getRawNumber c row index = getValue c row index.
Proof. split; reflexivity. Qed.

(** C6: while the loaded flag of a column is not set, [getValue] is the
    sentinel [null] and [getLabel] the empty placeholder label, for
    every row and whatever the reduction would compute; once the column
    is marked loaded, [getValue] is the reduction's result (or its
    substitute). *)
Theorem not_loaded_gives_placeholder c row index :
  isLoaded c = false ->
  getValue c row index = VNull /\
  getLabel c row index = "" /\
  getValue (setLoaded true c) row index =
    (if is_missing (compute (setLoaded true c) row index)
     then VNumber (missingValue c)
     else compute (setLoaded true c) row index).
Proof.
  intros Hl. split; [|split].
  - now apply getValue_unloaded.
  - unfold CompositeNumber.getLabel. now rewrite Hl.
  - now rewrite getValue_loaded.
Qed.

(** C2: on a loaded column, a reduction that yields [undefined], [null]
    or NaN makes [getValue] return the missing-value substitute, and a
    reduction that yields any other number is returned unchanged; the
    reduction of the class itself always yields NaN, whatever the
    children (none included), so that [getValue] is then the
    substitute; the substitute is 0 unless the descriptor gives one. *)
Theorem getValue_substitutes_missing c row index :
  isLoaded c = true ->
  (compute c row index = VUndefined \/ compute c row index = VNull \/
   (exists n, compute c row index = VNumber n /\ is_nan n = true) ->
   getValue c row index = VNumber (missingValue c)) /\
  (forall n, compute c row index = VNumber n -> is_nan n = false ->
   getValue c row index = VNumber n) /\
  CompositeNumber.getValue string_to_number compute_base c row index =
    VNumber (missingValue c) /\
  (forall i d, missingValue (new i d) =
               match desc_missingValue d with Some m => m | None => 0%float end).
Proof.
  intros Hl. repeat split.
  - rewrite (getValue_loaded _ _ _ Hl).
    intros [H | [H | (n & H & Hn)]]; rewrite H; try reflexivity.
    rewrite is_missing_number, Hn. reflexivity.
  - intros n H Hn. rewrite (getValue_loaded _ _ _ Hl), H.
    rewrite is_missing_number, Hn. reflexivity.
  - unfold CompositeNumber.getValue. rewrite Hl. reflexivity.
  - intros i d. rewrite new_missingValue. now destruct (desc_missingValue d).
Qed.

(** C5: on a loaded column, [getLabel] is the string conversion of the
    value itself when [getValue] yields something that is not a number,
    and the column's number format applied to the value when it is a
    number. *)
Theorem getLabel_formats_numbers_only c row index :
  isLoaded c = true ->
  (typeof_number (getValue c row index) = false ->
   getLabel c row index = ToString number_to_string (getValue c row index)) /\
  (forall n, getValue c row index = VNumber n ->
   getLabel c row index = numberFormat c n).
Proof.
  intros Hl. unfold CompositeNumber.getLabel. rewrite Hl. simpl. split.
  - destruct (getValue c row index); try reflexivity. discriminate.
  - intros n ->. reflexivity.
Qed.

(** *** dump and restore *)

Variable child_dump : Child -> (ICompositeNumberDesc -> DescRef) -> Dump DescRef.
Variable toDescRef : ICompositeNumberDesc -> DescRef.
Variable factory : Dump DescRef -> option Child.

Local Abbreviation dump := (CompositeNumber.dump child_dump).
Local Abbreviation super_dump := (CompositeNumber.super_dump child_dump).
Local Abbreviation restore := (CompositeNumber.restore format).

Lemma dump_is_super_dump_with_missingValue c :
  dump c toDescRef = put_missingValue DescRef (missingValue c) (super_dump c toDescRef).
Proof. reflexivity. Qed.

Lemma restore_dump_missingValue t x :
  missingValue (restore t (dump x toDescRef) factory) = missingValue x.
Proof. reflexivity. Qed.

(** The record carries no number format: the format of the column that
    is restored into stays what it was. *)
Lemma restore_dump_numberFormat t x :
  numberFormat (restore t (dump x toDescRef) factory) = numberFormat t.
Proof. reflexivity. Qed.

Lemma restore_dump_isLoaded t x :
  isLoaded (restore t (dump x toDescRef) factory) = isLoaded t.
Proof. reflexivity. Qed.

(** The children of the restored column are what the factory makes of
    the child records, in the order of the dumped children. *)
Lemma restore_dump_children t x :
  children (restore t (dump x toDescRef) factory) =
  children t ++ omap (fun ch => factory (child_dump ch toDescRef)) (children x).
Proof.
  change (children (restore t (dump x toDescRef) factory))
    with (children t ++
          omap factory (map (fun ch => child_dump ch toDescRef) (children x))).
  f_equal. generalize (children x) as chs.
  induction chs as [|ch chs IH]; [reflexivity|].
  cbn [map omap list_omap]. rewrite IH. reflexivity.
Qed.

(** With the reduction of the class itself, the values survive the
    round trip into any column of the same loaded state. *)
Lemma restore_dump_getValue_base t x (row : Row) index :
  isLoaded t = isLoaded x ->
  CompositeNumber.getValue string_to_number compute_base
    (restore t (dump x toDescRef) factory) row index =
  CompositeNumber.getValue string_to_number compute_base x row index.
Proof.
  intros Hl. unfold CompositeNumber.getValue.
  rewrite restore_dump_isLoaded, Hl, restore_dump_missingValue. reflexivity.
Qed.

(** The labels survive it when the column restored into already has the
    number format of the dumped one. *)
Lemma restore_dump_getLabel_base t x (row : Row) index :
  isLoaded t = isLoaded x ->
  numberFormat t = numberFormat x ->
  CompositeNumber.getLabel string_to_number number_to_string compute_base
    (restore t (dump x toDescRef) factory) row index =
  CompositeNumber.getLabel string_to_number number_to_string compute_base
    x row index.
Proof.
  intros Hl Hf. unfold CompositeNumber.getLabel.
  rewrite (restore_dump_getValue_base _ _ _ _ Hl).
  rewrite restore_dump_isLoaded, Hl, restore_dump_numberFormat, Hf.
  reflexivity.
Qed.

(** C3: the record returned by [dump] has the [missingValue] field,
    holding the column's substitute, but no [numberFormat] field: the
    class adds [missingValue] to the inherited record and nothing
    else, although [restore] looks for a [numberFormat]. *)
Theorem dump_has_missingValue_but_no_numberFormat c :
  dump_missingValue (dump c toDescRef) = Some (missingValue c) /\
  dump_numberFormat (dump c toDescRef) =
    dump_numberFormat (super_dump c toDescRef) /\
  dump_numberFormat (dump c toDescRef) = None.
Proof. repeat split. Qed.

(** C1: a column that took its number format [.1f] from a record is
    dumped and the dump restored into a fresh column of the same id and
    descriptor; the values agree, but the original labels a row with
    [format('.1f')] and the restored column with the default
    [format('.3n')]: the format is not in the dump. *)
Theorem restore_dump_does_not_keep_numberFormat
        (ref : DescRef) (row : Row) (index : nat) :
  let x :=
    restore (new "c1" (mkDesc "composite" "C" None None))
            (mkDump "c1" ref default_width false false false None (Some ".1f") [])
            factory in
  let y := restore (new "c1" (desc x)) (dump x toDescRef) factory in
  (CompositeNumber.getValue string_to_number compute_base y row index =
   CompositeNumber.getValue string_to_number compute_base x row index) /\
  (children y = children x) /\
  (CompositeNumber.getLabel string_to_number number_to_string compute_base
     x row index = format ".1f" 0%float) /\
  (CompositeNumber.getLabel string_to_number number_to_string compute_base
     y row index = format ".3n" 0%float).
Proof. repeat split. Qed.

(** *** compare *)

Variable numberCompare : value -> value -> float.

Local Abbreviation compare :=
  (CompositeNumber.compare string_to_number compute numberCompare).
Local Abbreviation ordinary := (CompositeNumber.ordinary string_to_number).

Lemma compare_unfold c (a b : Row) aIndex bIndex :
  compare c a b aIndex bIndex =
  numberCompare (getValue c a aIndex) (getValue c b bIndex).
Proof. reflexivity. Qed.

Lemma ordinary_not_missing v : is_missing v = false -> ordinary v = true.
Proof.
  unfold CompositeNumber.is_missing, CompositeNumber.ordinary.
  destruct v; simpl; try discriminate; try reflexivity.
  - destruct b; reflexivity.
  - intros ->. reflexivity.
  - intros ->. reflexivity.
Qed.

(** Unless the substitute is itself NaN, what [getValue] hands out is
    an ordinary number for the comparator, loaded or not. *)
Lemma getValue_ordinary c row index :
  is_nan (missingValue c) = false -> ordinary (getValue c row index) = true.
Proof.
  intros Hm. unfold CompositeNumber.getValue.
  destruct (isLoaded c); simpl; [|reflexivity].
  destruct (is_missing (compute c row index)) eqn:E.
  - unfold CompositeNumber.ordinary, isNaN. simpl. now rewrite Hm.
  - now apply ordinary_not_missing.
Qed.


End CompositeNumberFacts.

(* ===================================================================== *)
(** ** The order of binary64 numbers, for the example comparator *)
(* ===================================================================== *)

Section FloatOrder.
Import JS.

Ltac split_comparisons :=
  change (Pos.compare_cont Eq) with Pos.compare;
  repeat match goal with
         | |- context [Z.compare ?a ?b] => destruct (Z.compare_spec a b)
         | |- context [Pos.compare ?a ?b] => destruct (Pos.compare_spec a b)
         end;
  simpl; try reflexivity; try discriminate; intros; exfalso; subst; lia.

Lemma SFltb_asym x y : SFltb x y = true -> SFltb y x = false.
Proof.
  unfold SFltb, SFcompare.
  destruct x as [sx|sx| |sx mx ex], y as [sy|sy| |sy my ey];
    try discriminate; try reflexivity;
    repeat match goal with s : bool |- _ => destruct s end;
    try reflexivity; try discriminate; split_comparisons.
Qed.

Lemma SFltb_false_trans x y z :
  sf_is_nan x = false -> sf_is_nan y = false -> sf_is_nan z = false ->
  SFltb y x = false -> SFltb z y = false -> SFltb z x = false.
Proof.
  unfold SFltb, SFcompare.
  destruct x as [sx|sx| |sx mx ex], y as [sy|sy| |sy my ey],
           z as [sz|sz| |sz mz ez];
    try discriminate; intros _ _ _;
    repeat match goal with s : bool |- _ => destruct s end;
    try reflexivity; try discriminate; split_comparisons.
Qed.

Lemma is_nan_Prim2SF x : is_nan x = false -> sf_is_nan (Prim2SF x) = false.
Proof.
  unfold is_nan. rewrite FloatAxioms.eqb_spec. unfold SFeqb, SFcompare.
  destruct (Prim2SF x); simpl; try reflexivity. discriminate.
Qed.

Lemma ltb_asym (a b : float) :
  (a <? b)%float = true -> (b <? a)%float = false.
Proof. rewrite !FloatAxioms.ltb_spec. apply SFltb_asym. Qed.

Lemma ltb_false_trans (a b c : float) :
  is_nan a = false -> is_nan b = false -> is_nan c = false ->
  (b <? a)%float = false -> (c <? b)%float = false -> (c <? a)%float = false.
Proof.
  intros Ha Hb Hc. rewrite !FloatAxioms.ltb_spec.
  apply SFltb_false_trans; now apply is_nan_Prim2SF.
Qed.

End FloatOrder.

Section CompositeNumberExamples.
Import JS CompositeNumber Samples.

Local Abbreviation getValue := (CompositeNumber.getValue string_to_number).
Local Abbreviation getLabel :=
  (CompositeNumber.getLabel string_to_number number_to_string).

(** The rows of the demo under the attribute reduction: 10 is kept, NaN
    and an absent attribute are replaced by the substitute. *)
Example getValue_a10 :
  getValue compute_a (column desc_mv7) row_a10 0 = VNumber 10%float.
Proof. reflexivity. Qed.

Example getValue_aNaN :
  getValue compute_a (column desc_mv7) row_aNaN 4 = VNumber 7%float.
Proof. reflexivity. Qed.

Example getValue_absent :
  getValue compute_a (column desc_plain) row_empty 1 = VNumber 0%float.
Proof. reflexivity. Qed.

(** A boolean is not a number and is not NaN after coercion: it is
    handed out as it is and labelled by its string conversion. *)
Example getValue_bool :
  getValue compute_a (column desc_plain) row_atrue 2 = VBool true /\
  getLabel compute_a (column desc_plain) row_atrue 2 = "true".
Proof. split; reflexivity. Qed.

Example getLabel_a10 :
  getLabel compute_a (column desc_f1) row_a10 0 = ".1f:#".
Proof. reflexivity. Qed.

Lemma not_loaded_gives_placeholder_witness :
  isLoaded (setLoaded false (column desc_plain)) = false /\
  getValue compute_a (setLoaded false (column desc_plain)) row_a10 0 = VNull /\
  getLabel compute_a (setLoaded false (column desc_plain)) row_a10 0 = "".
Proof.
  split; [reflexivity|].
  destruct (not_loaded_gives_placeholder string_to_number number_to_string
              compute_a (setLoaded false (column desc_plain)) row_a10 0
              eq_refl) as (Hv & Hl & _).
  split; [exact Hv | exact Hl].
Defined.

Lemma getValue_substitutes_missing_witness :
  isLoaded (column desc_mv7) = true /\
  getValue compute_a (column desc_mv7) row_aNaN 0 = VNumber 7%float.
Proof.
  split; [reflexivity|].
  destruct (getValue_substitutes_missing format string_to_number 100%float
              compute_a (column desc_mv7) row_aNaN 0 eq_refl) as (Hsub & _).
  apply Hsub. right; right. exists nan. split; reflexivity.
Defined.

Lemma getLabel_formats_numbers_only_witness :
  isLoaded (column desc_f1) = true /\
  getLabel compute_a (column desc_f1) row_a10 0 =
    numberFormat (column desc_f1) 10%float.
Proof.
  split; [reflexivity|].
  destruct (getLabel_formats_numbers_only string_to_number number_to_string
              compute_a (column desc_f1) row_a10 0 eq_refl) as (_ & Hnum).
  apply Hnum. reflexivity.
Defined.

(** The lost number format, on concrete labels. *)
Example restored_label_differs :
  let x := restore format (column desc_plain) record_f1 factory in
  let y := restore format (new format 100%float "c1" (desc x))
                   (dump child_dump x toDescRef) factory in
  getLabel compute_base x row_a10 0 = ".1f:0" /\
  getLabel compute_base y row_a10 0 = ".3n:0".
Proof. split; reflexivity. Qed.

(** *** The example comparator is a total preorder on ordinary values *)

Lemma numberCompare_not_after x y :
  not_after numberCompare x y <->
  (ToNumber string_to_number y <? ToNumber string_to_number x)%float = false.
Proof.
  unfold not_after, numberCompare.
  destruct (ToNumber string_to_number x <? ToNumber string_to_number y)%float
    eqn:Hxy.
  - apply ltb_asym in Hxy. rewrite Hxy. split; reflexivity.
  - destruct (ToNumber string_to_number y <? ToNumber string_to_number x)%float;
      split; intros H; try reflexivity; try exact H; discriminate H.
Qed.

Lemma ordinary_ToNumber v :
  ordinary string_to_number v = true ->
  is_nan (ToNumber string_to_number v) = false.
Proof.
  unfold ordinary, isNaN. intros H.
  apply andb_prop in H as [_ H]. now apply negb_true_iff in H.
Qed.

Lemma numberCompare_total x y :
  not_after numberCompare x y \/ not_after numberCompare y x.
Proof.
  rewrite !numberCompare_not_after.
  destruct (ToNumber string_to_number y <? ToNumber string_to_number x)%float
    eqn:Hyx; [right | left; reflexivity].
  now apply ltb_asym.
Qed.

Lemma numberCompare_trans x y z :
  ordinary string_to_number x = true ->
  ordinary string_to_number y = true ->
  ordinary string_to_number z = true ->
  not_after numberCompare x y -> not_after numberCompare y z ->
  not_after numberCompare x z.
Proof.
  intros Hx Hy Hz. rewrite !numberCompare_not_after.
  apply ltb_false_trans; now apply ordinary_ToNumber.
Qed.



End CompositeNumberExamples.

(* ===================================================================== *)
(** ** Properties of the header renderer *)
(* ===================================================================== *)

Section HeaderFacts.
Import JS Header.

(** *** countMultiLevel *)

Lemma countMultiLevel_leaf c :
  isMultiLevelColumn c = false -> countMultiLevel c = 1%float.
Proof. destruct c; simpl. now intros ->. Qed.

Lemma countMultiLevel_collapsed c :
  getCollapsed c = true -> countMultiLevel c = 1%float.
Proof. destruct c; simpl. intros ->. now rewrite andb_false_r. Qed.

Lemma countMultiLevel_compressed c :
  getCompressed c = true -> countMultiLevel c = 1%float.
Proof. destruct c; simpl. intros ->. now rewrite andb_false_r. Qed.

(** C7: [countMultiLevel c] is 1 unless [c] is a multi-level column
    that is neither collapsed nor compressed, and then it is 1 plus
    [Math.max] of [countMultiLevel] over the children; in particular a
    leaf and a collapsed or compressed composite count 1 whatever lies
    below them. *)
Theorem countMultiLevel_depth c :
  countMultiLevel c =
    (if isMultiLevelColumn c && negb (getCollapsed c) && negb (getCompressed c)
     then (1 + Math_max (map countMultiLevel (col_children c)))%float
     else 1%float) /\
  (isMultiLevelColumn c = false \/ getCollapsed c = true \/
   getCompressed c = true -> countMultiLevel c = 1%float).
Proof.
  split.
  - destruct c; reflexivity.
  - intros [H | [H | H]].
    + now apply countMultiLevel_leaf.
    + now apply countMultiLevel_collapsed.
    + now apply countMultiLevel_compressed.
Qed.

Example countMultiLevel_expanded :
  countMultiLevel (Samples.stack_deep false false) = 3%float.
Proof. reflexivity. Qed.

Example countMultiLevel_collapsed_deep :
  countMultiLevel (Samples.stack_deep true false) = 1%float /\
  countMultiLevel (Samples.stack_deep false true) = 1%float.
Proof. split; reflexivity. Qed.

(** [Math.max] of no arguments is [-Infinity]. *)
Example countMultiLevel_no_children :
  countMultiLevel (Samples.stack "empty" false false []) = neg_infinity.
Proof. reflexivity. Qed.

(** *** The cache as a sequence of sets *)

Lemma apply_sets_app s1 s2 m :
  apply_sets (s1 ++ s2) m = apply_sets s2 (apply_sets s1 m).
Proof. unfold apply_sets. apply fold_left_app. Qed.

Lemma fold_set_stats histo rk cols m :
  histo = getOrder rk ->
  fold_left (set_stats histo) cols m =
  apply_sets (map (fun col => (col_id col, stats_entry rk col)) cols) m.
Proof.
  intros ->. revert m. induction cols as [|col cols IH]; intros m; [reflexivity|].
  simpl. rewrite IH. reflexivity.
Qed.

Lemma fold_set_hist histo rk cols m :
  histo = getOrder rk ->
  fold_left (set_hist histo) cols m =
  apply_sets (map (fun col => (col_id col, hist_entry rk col)) cols) m.
Proof.
  intros ->. revert m. induction cols as [|col cols IH]; intros m; [reflexivity|].
  simpl. rewrite IH. reflexivity.
Qed.

Lemma updateHist_ranking_sets m rk :
  updateHist_ranking m rk = apply_sets (sets_of_ranking rk) m.
Proof.
  unfold updateHist_ranking, sets_of_ranking.
  rewrite apply_sets_app.
  rewrite (fold_set_stats _ rk) by reflexivity.
  now rewrite (fold_set_hist _ rk) by reflexivity.
Qed.

Lemma fold_updateHist_ranking_sets rks m :
  fold_left updateHist_ranking rks m = apply_sets (sets_of_rankings rks) m.
Proof.
  revert m. induction rks as [|rk rks IH]; intros m; [reflexivity|].
  simpl. rewrite IH, updateHist_ranking_sets.
  unfold sets_of_rankings. simpl. now rewrite apply_sets_app.
Qed.

Lemma histCache_updateHist r :
  histCache (updateHist r) =
  apply_sets (sets_of_rankings (getRankings r)) (histCache r).
Proof. apply fold_updateHist_ranking_sets. Qed.

(** A lookup sees the last set under the key, or else the old entry. *)
Lemma apply_sets_lookup sets m k :
  apply_sets sets m !! k =
  match last_set k sets with Some v => Some v | None => m !! k end.
Proof.
  revert m. induction sets as [|[k' v] sets IH]; intros m; [reflexivity|].
  change (apply_sets ((k', v) :: sets) m) with (apply_sets sets (<[k' := v]> m)).
  rewrite IH. simpl. destruct (last_set k sets); [reflexivity|].
  destruct (decide (k' = k)) as [->|Hne].
  - apply lookup_insert_eq.
  - now apply lookup_insert_ne.
Qed.

Lemma last_set_elem k sets v : last_set k sets = Some v -> (k, v) ∈ sets.
Proof.
  induction sets as [|[k' v'] sets IH]; simpl; [discriminate|].
  destruct (last_set k sets) as [w|].
  - intros [= <-]. right. now apply IH.
  - destruct (decide (k' = k)) as [->|]; [|discriminate].
    intros [= <-]. left.
Qed.

Lemma last_set_is_Some k v sets : (k, v) ∈ sets -> is_Some (last_set k sets).
Proof.
  induction sets as [|[k' v'] sets IH]; [intros H; inversion H|].
  rewrite elem_of_cons. intros [[= <- <-] | Hin]; simpl.
  - destruct (last_set k sets); [eauto|]. rewrite decide_True by reflexivity. eauto.
  - destruct (IH Hin) as [w ->]. eauto.
Qed.

Lemma last_set_None k sets :
  (forall v, (k, v) ∉ sets) -> last_set k sets = None.
Proof.
  intros Hno. destruct (last_set k sets) as [v|] eqn:E; [|reflexivity].
  apply last_set_elem in E. now apply Hno in E.
Qed.

(** What [updateHist] sets: for every visible number or categorical
    column of every ranking, the handle computed from that ranking's
    order. *)
Lemma elem_of_sets_of_ranking k v rk :
  (k, v) ∈ sets_of_ranking rk <->
  exists col, col ∈ flatColumns rk /\ isHidden col = false /\ k = col_id col /\
    ((isNumberColumnInstance col = true /\ v = stats_entry rk col) \/
     (isCategoricalColumn col = true /\ v = hist_entry rk col)).
Proof.
  unfold sets_of_ranking. rewrite elem_of_app, !list_elem_of_In, !in_map_iff.
  split.
  - intros [(col & [= <- <-] & Hin) | (col & [= <- <-] & Hin)];
      apply list_elem_of_In, list_elem_of_filter in Hin as [Hp Hin];
      apply andb_prop in Hp as [Hk Hh]; apply negb_true_iff in Hh;
      exists col; eauto 10.
  - intros (col & Hin & Hh & -> & [[Hk ->] | [Hk ->]]); [left | right];
      exists col; (split; [reflexivity|]);
      apply list_elem_of_In, list_elem_of_filter; (split; [|exact Hin]);
      now rewrite Hk, Hh.
Qed.

Lemma elem_of_sets_of_rankings k v rks :
  (k, v) ∈ sets_of_rankings rks <->
  exists rk col, rk ∈ rks /\ col ∈ flatColumns rk /\ isHidden col = false /\
    k = col_id col /\
    ((isNumberColumnInstance col = true /\ v = stats_entry rk col) \/
     (isCategoricalColumn col = true /\ v = hist_entry rk col)).
Proof.
  unfold sets_of_rankings. rewrite list_elem_of_In, in_concat. split.
  - intros (l & Hl & Hin). apply in_map_iff in Hl as (rk & <- & Hrk).
    apply list_elem_of_In, elem_of_sets_of_ranking in Hin as (col & H).
    exists rk, col. split; [now apply list_elem_of_In | exact H].
  - intros (rk & col & Hrk & H). exists (sets_of_ranking rk). split.
    + apply in_map_iff. exists rk. split; [reflexivity|now apply list_elem_of_In].
    + apply list_elem_of_In, elem_of_sets_of_ranking. now exists col.
Qed.

(** Running [updateHist] twice in a row is running it once. *)
Lemma apply_sets_twice sets m :
  apply_sets sets (apply_sets sets m) = apply_sets sets m.
Proof.
  apply map_eq. intros k. rewrite !apply_sets_lookup.
  now destruct (last_set k sets).
Qed.

Lemma histCache_update_updateHist r :
  histCache (update (updateHist r)) = histCache (updateHist r).
Proof.
  unfold update. destruct (_ && _ && _); [|reflexivity].
  rewrite histCache_updateHist.
  change (getRankings (updateHist r)) with (getRankings r).
  rewrite histCache_updateHist. apply apply_sets_twice.
Qed.

Lemma histCache_on_order_changed r :
  histCache (on_order_changed r) =
  if orderListener r
  then apply_sets (sets_of_rankings (getRankings r)) (histCache r)
  else histCache r.
Proof.
  unfold on_order_changed. destruct (orderListener r); [|reflexivity].
  now rewrite histCache_update_updateHist, histCache_updateHist.
Qed.

Lemma orderListener_new rks h : orderListener (new rks h) = default false h.
Proof. reflexivity. Qed.

Lemma on_order_changed_unregistered r :
  orderListener r = false -> on_order_changed r = r.
Proof. unfold on_order_changed. now intros ->. Qed.

(** The cache is keyed by column id; when the
    order-changed listener is registered (histograms are on), an order
    change overwrites the entry of every visible [NumberColumn] and
    categorical column of every ranking with the handle computed from
    the current order of a ranking that shows a column of that id (the
    statistics of a number column, the histogram of a categorical one;
    [null] when the ranking has no order), and leaves every other key
    as it was. *)
Theorem order_change_overwrites_visible_entries r :
  orderListener r = true ->
  (forall rk col,
     rk ∈ getRankings r -> col ∈ flatColumns rk -> has_histogram col = true ->
     exists rk' col',
       rk' ∈ getRankings r /\ col' ∈ flatColumns rk' /\
       isHidden col' = false /\ col_id col' = col_id col /\
       ((isNumberColumnInstance col' = true /\
         histCache (on_order_changed r) !! col_id col =
           Some (stats_entry rk' col')) \/
        (isCategoricalColumn col' = true /\
         histCache (on_order_changed r) !! col_id col =
           Some (hist_entry rk' col')))) /\
  (forall k,
     (forall rk col, rk ∈ getRankings r -> col ∈ flatColumns rk ->
                     has_histogram col = true -> col_id col <> k) ->
     histCache (on_order_changed r) !! k = histCache r !! k).
Proof.
  intros Hon. rewrite histCache_on_order_changed, Hon. split.
  - intros rk col Hrk Hcol Hh. rewrite apply_sets_lookup.
    unfold has_histogram in Hh. apply andb_prop in Hh as [Hhid Hkind].
    apply negb_true_iff in Hhid. apply orb_prop in Hkind.
    assert (exists v, (col_id col, v) ∈ sets_of_rankings (getRankings r))
      as [v Hv].
    { destruct Hkind as [Hk | Hk];
        [exists (stats_entry rk col) | exists (hist_entry rk col)];
        apply elem_of_sets_of_rankings; exists rk, col; eauto 10. }
    destruct (last_set_is_Some _ _ _ Hv) as [w Hw]. rewrite Hw.
    apply last_set_elem, elem_of_sets_of_rankings in Hw
      as (rk' & col' & Hrk' & Hcol' & Hhid' & Hid & Hcase).
    exists rk', col'. repeat (split; [done|]).
    destruct Hcase as [[Hk ->] | [Hk ->]]; [left | right]; done.
  - intros k Hk. rewrite apply_sets_lookup, last_set_None; [reflexivity|].
    intros v Hv. apply elem_of_sets_of_rankings in Hv
      as (rk & col & Hrk & Hcol & Hhid & -> & Hcase).
    apply (Hk rk col Hrk Hcol); [|reflexivity].
    unfold has_histogram. rewrite Hhid. simpl.
    destruct Hcase as [[-> _] | [-> _]]; [reflexivity | apply orb_true_r].
Qed.

End HeaderFacts.

Section HeaderExamples.
Import JS Header Samples.

(** With histograms on, an order change fills in the visible number
    and categorical columns and nothing else. *)
Example order_change_with_histograms :
  let r := on_order_changed (new [ranking1] (Some true)) in
  histCache r !! "n" = Some (Some (StatsOf [1; 2; 0]%nat "n")) /\
  histCache r !! "c" = Some (Some (HistOf [1; 2; 0]%nat "c")) /\
  histCache r !! "h" = None /\
  histCache r !! "s" = None.
Proof. repeat split. Qed.

(** A ranking without an order gets [null] entries. *)
Example order_change_without_order :
  histCache (on_order_changed (new [ranking_unordered] (Some true))) !! "n"
  = Some None.
Proof. reflexivity. Qed.

(** The entry of a column that has been hidden since is kept: the cache
    is overwritten key by key, not cleared. *)
Example stale_entry_survives :
  let r := on_order_changed (new [ranking1] (Some true)) in
  let hidden := mkRanking (Some [0; 1; 2]%nat) [col_c; leaf "n" true false true] in
  let r' := on_order_changed (with_rankings [hidden] r) in
  histCache r' !! "n" = Some (Some (StatsOf [1; 2; 0]%nat "n")) /\
  histCache r' !! "c" = Some (Some (HistOf [0; 1; 2]%nat "c")).
Proof. split; reflexivity. Qed.

(** A renderer built with the default options ([histograms: false])
    registers no order listener, and an order change leaves the cache
    without an entry for the visible number column. *)
Lemma order_change_without_histograms_keeps_cache :
  on_order_changed (new [ranking1] None) = new [ranking1] None /\
  histCache (on_order_changed (new [ranking1] None)) !! "n" = None /\
  ~ (forall r rk col,
       rk ∈ getRankings r -> col ∈ flatColumns rk -> has_histogram col = true ->
       is_Some (histCache (on_order_changed r) !! col_id col)).
Proof.
  split; [reflexivity|]. split; [reflexivity|].
  intros H.
  destruct (H (new [ranking1] None) ranking1 col_n) as [v Hv].
  - left.
  - left.
  - reflexivity.
  - discriminate Hv.
Qed.

Lemma order_change_overwrites_visible_entries_witness :
  orderListener (new [ranking1] (Some true)) = true /\
  exists rk' col',
    rk' ∈ getRankings (new [ranking1] (Some true)) /\
    col' ∈ flatColumns rk' /\ isHidden col' = false /\
    col_id col' = col_id col_n /\
    ((isNumberColumnInstance col' = true /\
      histCache (on_order_changed (new [ranking1] (Some true))) !! col_id col_n
      = Some (stats_entry rk' col')) \/
     (isCategoricalColumn col' = true /\
      histCache (on_order_changed (new [ranking1] (Some true))) !! col_id col_n
      = Some (hist_entry rk' col'))).
Proof.
  split; [reflexivity|].
  destruct (order_change_overwrites_visible_entries
              (new [ranking1] (Some true)) eq_refl) as (Hfresh & _).
  apply (Hfresh ranking1 col_n).
  - left.
  - left.
  - reflexivity.
Defined.

End HeaderExamples.

(* ===================================================================== *)
(** ** Properties of LineUp.sortBy *)
(* ===================================================================== *)

Section LineUpFacts.
Import LineUp.

Context {Column DataProvider : Type}.
Variable find : DataProvider -> Selector Column -> option Column.
Variable sortByMe : Column -> bool -> DataProvider -> DataProvider.

Local Abbreviation sortBy := (LineUp.sortBy find sortByMe).

(** C9: [sortBy] answers [true] exactly when [find] locates a column,
    and then the provider is what that column's [sortByMe] leaves, called
    with the given direction (descending when omitted); when [find]
    locates none the answer is [false] and the provider, its sort
    criteria included, is unchanged. *)
Theorem sortBy_true_iff_found data column ascending :
  (fst (sortBy data column ascending) = true <->
   is_Some (find data column)) /\
  match find data column with
  | Some col =>
      sortBy data column ascending =
      (true, sortByMe col (default false ascending) data)
  | None => sortBy data column ascending = (false, data)
  end.
Proof.
  unfold LineUp.sortBy. destruct (find data column) as [col|]; simpl.
  - split; [|reflexivity]. split; [eauto | reflexivity].
  - split; [|reflexivity]. split; [discriminate | intros [? [=]]].
Qed.

End LineUpFacts.

Section LineUpExamples.
Import LineUp Samples.

Example sortBy_known_column :
  sortBy find sortByMe provider1 (inl "b") (Some true) =
  (true, [mkSRanking ["rank"; "a"; "b"] (Some ("b", true))]).
Proof. reflexivity. Qed.

Example sortBy_default_direction :
  sortBy find sortByMe provider1 (inr (fun c => bool_decide (c = "a"))) None =
  (true, [mkSRanking ["rank"; "a"; "b"] (Some ("a", false))]).
Proof. reflexivity. Qed.

Example sortBy_unknown_column :
  sortBy find sortByMe provider1 (inl "zz") (Some true) = (false, provider1).
Proof. reflexivity. Qed.

End LineUpExamples.

(* ===================================================================== *)
(** ** More on the header renderer: tooltips, resizing, selection, cache *)
(* ===================================================================== *)

Section FloatComparisons.
Import JS.

Ltac split_all_comparisons :=
  change (Pos.compare_cont Eq) with Pos.compare;
  repeat match goal with
         | |- context [Z.compare ?a ?b] => destruct (Z.compare_spec a b)
         | |- context [Pos.compare ?a ?b] => destruct (Pos.compare_spec a b)
         end;
  simpl; try reflexivity; try discriminate; intros; exfalso; subst; lia.

Lemma SFleb_of_not_ltb x y :
  sf_is_nan x = false -> sf_is_nan y = false ->
  SFltb y x = false -> SFleb x y = true.
Proof.
  unfold SFltb, SFleb, SFcompare.
  destruct x as [sx|sx| |sx mx ex], y as [sy|sy| |sy my ey];
    try discriminate; intros _ _;
    repeat match goal with s : bool |- _ => destruct s end;
    try reflexivity; try discriminate; split_all_comparisons.
Qed.

Lemma SFeqb_refl x : sf_is_nan x = false -> SFeqb x x = true.
Proof.
  unfold SFeqb, SFcompare. destruct x as [s|s| |s m e]; try discriminate;
    intros _; try (destruct s; reflexivity).
  destruct s; rewrite Z.compare_refl;
    change (Pos.compare_cont Eq m m) with (Pos.compare m m);
    now rewrite Pos.compare_refl.
Qed.

Lemma Prim2SF_is_nan x : is_nan x = true -> Prim2SF x = S754_nan.
Proof.
  unfold is_nan. rewrite FloatAxioms.eqb_spec. intros H.
  destruct (sf_is_nan (Prim2SF x)) eqn:E.
  - now destruct (Prim2SF x).
  - rewrite (SFeqb_refl _ E) in H. discriminate H.
Qed.

(** Every comparison with NaN is false. *)
Lemma ltb_nan_l x y : is_nan x = true -> (x <? y)%float = false.
Proof.
  intros H. rewrite FloatAxioms.ltb_spec, (Prim2SF_is_nan _ H). reflexivity.
Qed.

Lemma leb_of_not_ltb x y :
  is_nan x = false -> is_nan y = false ->
  (y <? x)%float = false -> (x <=? y)%float = true.
Proof.
  intros Hx Hy. rewrite FloatAxioms.ltb_spec, FloatAxioms.leb_spec.
  apply SFleb_of_not_ltb; now apply is_nan_Prim2SF.
Qed.

Lemma ltb_irrefl x : (x <? x)%float = false.
Proof.
  destruct (x <? x)%float eqn:H; [|reflexivity].
  now rewrite (ltb_asym _ _ H) in H.
Qed.

(** Of two numbers, [Math.max] is one of them, and not below the
    second. *)
Lemma max2_cases a b :
  is_nan a = false -> is_nan b = false ->
  (max2 a b = a \/ max2 a b = b) /\ is_nan (max2 a b) = false /\
  (b <=? max2 a b)%float = true.
Proof.
  intros Ha Hb. unfold max2. rewrite Ha, Hb. simpl.
  assert ((b <=? b)%float = true) as Hbb
    by (apply leb_of_not_ltb; try assumption; apply ltb_irrefl).
  destruct (a <? b)%float eqn:Hab; [repeat split; auto|].
  assert ((b <=? a)%float = true) as Hba' by now apply leb_of_not_ltb.
  destruct (b <? a)%float eqn:Hba; [repeat split; auto|].
  destruct (get_sign a); repeat split; auto.
Qed.

End FloatComparisons.

Section HeaderMoreFacts.
Import JS Header.

(** *** toFullTooltip *)

Lemma append_eq_self (a b : string) : a +:+ b = a -> b = "".
Proof.
  induction a as [|c a IH]; simpl; [tauto|].
  intros [= H]. now apply IH.
Qed.

(** X1: the tooltip of a column is its label alone exactly when the
    description is absent or empty, and otherwise the label, a line feed
    and the description. *)
Theorem toFullTooltip_label_only_iff label description :
  (toFullTooltip label description = label <->
   description = None \/ description = Some "") /\
  (forall d, description = Some d -> d <> "" ->
     toFullTooltip label description = label +:+ newline +:+ d).
Proof.
  unfold toFullTooltip. destruct description as [d|].
  - destruct (String.eqb_spec d "") as [->|Hne]; simpl.
    + split; [|intros d [= <-] Hd; now destruct Hd].
      split; [now right | reflexivity].
    + split.
      * split; [|intros [[=] | [= ->]]; now destruct Hne].
        intros H. apply append_eq_self in H. discriminate H.
      * intros d' [= <-] _. reflexivity.
  - split; [|intros d [=]]. split; [now left | reflexivity].
Qed.

Example toFullTooltip_with_description :
  toFullTooltip "Score" (Some "weighted sum") =
  "Score" +:+ newline +:+ "weighted sum".
Proof. reflexivity. Qed.

(** *** The width set while dragging *)

(** X2: while a column is resized, the width handed to [setWidth] is the
    mouse position or 2 and never below 2; only a NaN position gets
    through, as NaN. *)
Theorem drag_newValue_at_least_2 mouse_x :
  (is_nan mouse_x = false ->
   (drag_newValue mouse_x = mouse_x \/ drag_newValue mouse_x = 2%float) /\
   (2 <=? drag_newValue mouse_x)%float = true) /\
  (is_nan mouse_x = true -> drag_newValue mouse_x = nan).
Proof.
  unfold drag_newValue, Math_max. cbn [fold_left]. split.
  - intros Hx.
    destruct (max2_cases neg_infinity mouse_x eq_refl Hx) as (Hy & Hyn & _).
    destruct (max2_cases (max2 neg_infinity mouse_x) 2%float Hyn eq_refl)
      as (Hr & _ & Hle).
    split; [|exact Hle].
    destruct Hr as [Hr | Hr]; [|now right].
    destruct Hy as [Hy | Hy]; [|left; now rewrite Hr, Hy].
    rewrite Hr, Hy in Hle. discriminate Hle.
  - intros Hx. unfold max2 at 2. rewrite Hx. reflexivity.
Qed.

Example drag_newValue_examples :
  drag_newValue 57%float = 57%float /\
  drag_newValue (-3)%float = 2%float /\
  drag_newValue 0.5%float = 2%float.
Proof. repeat split. Qed.

(** *** The number of header levels *)

Lemma fold_max2_ones xs :
  Forall (fun x => x = 1%float) xs -> fold_left max2 xs 1%float = 1%float.
Proof.
  induction 1 as [|x xs -> _ IH]; [reflexivity|]. simpl. exact IH.
Qed.

(** X17: with no column at all the number of header levels that [update]
    computes is [-Infinity]; with at least one column, and every column
    a leaf or a collapsed or compressed composite, it is 1. *)
Theorem header_levels_flat columns :
  header_levels [] = neg_infinity /\
  (columns <> [] ->
   (forall c, c ∈ columns ->
      isMultiLevelColumn c = false \/ getCollapsed c = true \/
      getCompressed c = true) ->
   header_levels columns = 1%float).
Proof.
  split; [reflexivity|]. intros Hne Hflat.
  assert (Forall (fun x => x = 1%float) (map countMultiLevel columns)) as Hones.
  { apply Forall_forall. intros x Hx.
    apply list_elem_of_In, in_map_iff in Hx as (c & <- & Hc).
    apply list_elem_of_In in Hc.
    destruct (Hflat c Hc) as [H | [H | H]].
    - now apply countMultiLevel_leaf.
    - now apply countMultiLevel_collapsed.
    - now apply countMultiLevel_compressed. }
  unfold header_levels, Math_max.
  destruct columns as [|c columns]; [done|].
  simpl in *. apply Forall_cons in Hones as [-> Hones].
  change (max2 neg_infinity 1) with 1%float.
  now apply fold_max2_ones.
Qed.

End HeaderMoreFacts.

Section HeaderSelectionFacts.
Import JS Header.

Variable string_to_number : string -> float.

Local Abbreviation bar_above := (Header.bar_above string_to_number).
Local Abbreviation selectBin_from := (Header.selectBin_from string_to_number).
Local Abbreviation selectBin := (Header.selectBin string_to_number).
Local Abbreviation selectedBars := (Header.selectedBars string_to_number).

Lemma selectBin_from_None v i rest :
  selectBin_from v i rest = None <-> rest = [].
Proof.
  revert i. induction rest as [|bar rest IH]; intros i; simpl; [tauto|].
  split; [|discriminate].
  destruct (bar_above v bar); [discriminate|].
  destruct rest as [|bar' rest]; [discriminate|].
  intros H. apply IH in H. discriminate H.
Qed.

(** The loop entered at [i] stops at a [k] from [i - 1] on: no bar from
    [i] to [k] lies above the value, and the bar after [k], if there is
    one, does. *)
Lemma selectBin_from_Some v i rest k :
  1 <= i ->
  selectBin_from v i rest = Some k ->
  i - 1 <= k < i + length rest /\
  (forall j x, i + j <= k -> rest !! j = Some x -> bar_above v x = false) /\
  (forall x, rest !! (k + 1 - i) = Some x -> bar_above v x = true).
Proof.
  revert i. induction rest as [|bar rest IH]; intros i Hi; simpl; [discriminate|].
  destruct (bar_above v bar) eqn:Hbar.
  - intros [= <-]. split; [lia|]. split; [intros j x Hj; lia|].
    replace (i - 1 + 1 - i) with 0 by lia. intros x [= <-]. exact Hbar.
  - destruct rest as [|bar' rest].
    + intros [= <-]. split; [simpl; lia|]. split.
      * intros j x Hj. replace j with 0 by lia. now intros [= <-].
      * replace (i + 1 - i) with 1 by lia. discriminate.
    + intros H. apply IH in H as (Hk & Hlow & Hup); [|lia].
      split; [simpl in *; lia|]. split.
      * intros [|j] x Hj; [now intros [= <-]|].
        apply Hlow. lia.
      * replace (k + 1 - i) with (S (k + 1 - S i)) by lia. exact Hup.
Qed.

Lemma selectBin_from_nan v i rest :
  is_nan v = true -> rest <> [] ->
  selectBin_from v i rest = Some (i + length rest - 1).
Proof.
  intros Hv. revert i. induction rest as [|bar rest IH]; intros i Hne; [done|].
  simpl. unfold Header.bar_above. rewrite (ltb_nan_l _ _ Hv).
  destruct rest as [|bar' rest]; [f_equal; simpl; lia|].
  rewrite IH by discriminate. f_equal. simpl. lia.
Qed.

(** X3: with fewer than two histogram bars the loop of [drawSelection]
    selects none, whatever the value (a single bar is never
    highlighted); with two or more it always selects one. *)
Theorem selectBin_None_iff v bars :
  (selectBin v bars = None <-> length bars <= 1) /\
  (length bars <= 1 -> forall values, selectedBars bars values = ∅).
Proof.
  assert (selectBin v bars = None <-> length bars <= 1) as Hiff.
  { destruct bars as [|bar0 rest]; simpl; [split; [lia|reflexivity]|].
    rewrite selectBin_from_None. destruct rest; simpl; split;
      try reflexivity; try discriminate; lia. }
  split; [exact Hiff|].
  intros Hlen values. unfold Header.selectedBars.
  induction values as [|w values IH]; [reflexivity|]. simpl.
  destruct bars as [|bar0 [|bar1 rest]]; simpl in *; try exact IH. lia.
Qed.

(** X4: the bar [k] that [drawSelection] selects for a value is a bar of
    the histogram; none of the bars 1 to [k] has its start above the
    value, and the bar after [k], if there is one, has: [k] is the last
    bin starting at or below the value (bin 0 when all start above). *)
Theorem selectBin_last_bin_not_above v bars k :
  selectBin v bars = Some k ->
  k < length bars /\
  (forall j x, 1 <= j <= k -> bars !! j = Some x -> bar_above v x = false) /\
  (forall x, bars !! (S k) = Some x -> bar_above v x = true).
Proof.
  destruct bars as [|bar0 rest]; simpl; [discriminate|].
  intros H. apply selectBin_from_Some in H as (Hk & Hlow & Hup); [|lia].
  split; [lia|]. split.
  - intros [|j] x Hj; [lia|]. simpl. apply Hlow. lia.
  - replace (k + 1 - 1) with k in Hup by lia. exact Hup.
Qed.

(** X5: a NaN value is put into the last bin. *)
Theorem selectBin_nan_last v bars :
  is_nan v = true -> 2 <= length bars ->
  selectBin v bars = Some (length bars - 1).
Proof.
  intros Hv Hlen. destruct bars as [|bar0 rest]; simpl in *; [lia|].
  rewrite selectBin_from_nan; try assumption.
  - f_equal; lia.
  - intros ->. simpl in Hlen. lia.
Qed.

End HeaderSelectionFacts.

Section HeaderSelectionExamples.
Import JS Header Samples.

Example selectBin_examples :
  selectBin digit_to_number 3%float bars4 = Some 1 /\
  selectBin digit_to_number 4%float bars4 = Some 2 /\
  selectBin digit_to_number 9%float bars4 = Some 3 /\
  selectBin digit_to_number (-1)%float bars4 = Some 0 /\
  selectBin digit_to_number 3%float ["0"] = None.
Proof. repeat split. Qed.

Lemma selectBin_last_bin_not_above_witness :
  selectBin digit_to_number 3%float bars4 = Some 1 /\
  1 < length bars4 /\
  (forall x, bars4 !! 2 = Some x -> bar_above digit_to_number 3%float x = true).
Proof.
  split; [reflexivity|].
  destruct (selectBin_last_bin_not_above digit_to_number 3%float bars4 1
              eq_refl) as (Hk & _ & Hup).
  split; [exact Hk | exact Hup].
Defined.

Lemma selectBin_nan_last_witness :
  is_nan nan = true /\ 2 <= length bars4 /\
  selectBin digit_to_number nan bars4 = Some (length bars4 - 1).
Proof.
  split; [reflexivity|]. split; [simpl; lia|].
  apply (selectBin_nan_last digit_to_number nan bars4 eq_refl).
  simpl; lia.
Defined.

End HeaderSelectionExamples.

Section HeaderCacheMoreFacts.
Import JS Header.

Lemma last_set_app k s1 s2 :
  last_set k (s1 ++ s2) =
  match last_set k s2 with Some v => Some v | None => last_set k s1 end.
Proof.
  induction s1 as [|[k' v] s1 IH]; simpl; [now destruct (last_set k s2)|].
  rewrite IH. now destruct (last_set k s2), (last_set k s1).
Qed.

Lemma last_set_concat k blocks w :
  last_set k (concat blocks) = Some w ->
  exists block, block ∈ blocks /\ last_set k block = Some w.
Proof.
  induction blocks as [|b blocks IH]; simpl; [discriminate|].
  rewrite last_set_app. destruct (last_set k (concat blocks)) as [v|] eqn:E.
  - intros [= <-]. destruct (IH eq_refl) as (block & Hin & Hb).
    exists block. split; [now right | exact Hb].
  - intros Hb. exists b. split; [left | exact Hb].
Qed.

Lemma elem_of_hist_sets k v rk :
  (k, v) ∈ map (fun col => (col_id col, hist_entry rk col))
             (filter (fun d => isCategoricalColumn d && negb (isHidden d) = true)
                     (flatColumns rk)) <->
  exists col, col ∈ flatColumns rk /\ isCategoricalColumn col = true /\
              isHidden col = false /\ k = col_id col /\ v = hist_entry rk col.
Proof.
  rewrite list_elem_of_In, in_map_iff. split.
  - intros (col & [= <- <-] & Hin).
    apply list_elem_of_In, list_elem_of_filter in Hin as [Hp Hin].
    apply andb_prop in Hp as [Hk Hh]. apply negb_true_iff in Hh.
    exists col. eauto.
  - intros (col & Hin & Hk & Hh & -> & ->). exists col. split; [reflexivity|].
    apply list_elem_of_In, list_elem_of_filter. split; [|exact Hin].
    now rewrite Hk, Hh.
Qed.

Lemma has_histogram_spec col :
  has_histogram col = true <->
  isHidden col = false /\
  (isNumberColumnInstance col = true \/ isCategoricalColumn col = true).
Proof.
  unfold has_histogram.
  rewrite andb_true_iff, negb_true_iff, orb_true_iff. tauto.
Qed.

(** X6: neither an order change nor [update] ever removes a key from
    the cache; with the listener registered, the keys after an order
    change are the old keys and the ids of the visible [NumberColumn]
    and categorical columns of the rankings. *)
Theorem order_change_never_removes_keys r :
  dom (histCache r) ⊆ dom (histCache (on_order_changed r)) /\
  dom (histCache r) ⊆ dom (histCache (update r)) /\
  (orderListener r = true ->
   forall k, k ∈ dom (histCache (on_order_changed r)) <->
             k ∈ dom (histCache r) \/
             exists rk col, rk ∈ getRankings r /\ col ∈ flatColumns rk /\
                            has_histogram col = true /\ col_id col = k).
Proof.
  split; [|split].
  - intros k. rewrite !elem_of_dom, histCache_on_order_changed.
    destruct (orderListener r); [|tauto].
    rewrite apply_sets_lookup. destruct (last_set k _); eauto.
  - intros k. rewrite !elem_of_dom. unfold update.
    destruct (_ && _ && _); [|tauto].
    rewrite histCache_updateHist, apply_sets_lookup.
    destruct (last_set k _); eauto.
  - intros Hon k. rewrite !elem_of_dom, histCache_on_order_changed, Hon.
    rewrite apply_sets_lookup.
    destruct (last_set k (sets_of_rankings (getRankings r))) as [w|] eqn:E.
    + split; [|eauto]. intros _. right.
      apply last_set_elem, elem_of_sets_of_rankings in E
        as (rk & col & Hrk & Hcol & Hhid & -> & Hcase).
      exists rk, col. repeat (split; [done|]). split; [|reflexivity].
      apply has_histogram_spec. split; [exact Hhid|].
      destruct Hcase as [[Hk _] | [Hk _]]; eauto.
    + split; [now left|]. intros [H | (rk & col & Hrk & Hcol & Hh & <-)]; [exact H|].
      apply has_histogram_spec in Hh as [Hhid Hkind].
      assert (exists v, (col_id col, v) ∈ sets_of_rankings (getRankings r))
        as [v Hv].
      { destruct Hkind as [Hk | Hk];
          [exists (stats_entry rk col) | exists (hist_entry rk col)];
          apply elem_of_sets_of_rankings; exists rk, col; eauto 10. }
      apply last_set_is_Some in Hv as [w Hw]. congruence.
Qed.

(** X7: when the listener is registered and a visible histogram column
    is the only such column with its id (in one ranking only), the entry
    under its id after an order change is the handle for that ranking's
    current order: the histogram if the column is categorical, the
    statistics otherwise. *)
Theorem order_change_entry_of_unique_column r rk col :
  orderListener r = true ->
  rk ∈ getRankings r -> col ∈ flatColumns rk -> has_histogram col = true ->
  (forall rk' col',
     rk' ∈ getRankings r -> col' ∈ flatColumns rk' ->
     has_histogram col' = true -> col_id col' = col_id col ->
     rk' = rk /\ col' = col) ->
  histCache (on_order_changed r) !! col_id col =
  Some (if isCategoricalColumn col then hist_entry rk col
        else stats_entry rk col).
Proof.
  intros Hon Hrk Hcol Hh Huniq.
  rewrite histCache_on_order_changed, Hon, apply_sets_lookup.
  apply has_histogram_spec in Hh as [Hhid Hkind].
  assert (exists v, (col_id col, v) ∈ sets_of_rankings (getRankings r))
    as [v Hv].
  { destruct Hkind as [Hk | Hk];
      [exists (stats_entry rk col) | exists (hist_entry rk col)];
      apply elem_of_sets_of_rankings; exists rk, col; eauto 10. }
  apply last_set_is_Some in Hv as [w Hw]. rewrite Hw. f_equal.
  apply last_set_concat in Hw as (block & Hblock & Hw).
  apply list_elem_of_In, in_map_iff in Hblock as (rk' & <- & Hrk').
  apply list_elem_of_In in Hrk'.
  assert (rk' = rk) as ->.
  { pose proof (last_set_elem _ _ _ Hw) as Hin.
    apply elem_of_sets_of_ranking in Hin as (col' & Hcol' & Hhid' & Hid & Hcase).
    apply (Huniq rk' col'); try done.
    apply has_histogram_spec. split; [done|].
    destruct Hcase as [[? _] | [? _]]; eauto. }
  unfold sets_of_ranking in Hw. rewrite last_set_app in Hw.
  destruct (isCategoricalColumn col) eqn:Hcat.
  - assert (is_Some (last_set (col_id col)
              (map (fun c => (col_id c, hist_entry rk c))
                 (filter (fun d => isCategoricalColumn d && negb (isHidden d) = true)
                    (flatColumns rk))))) as [u Hu].
    { apply (last_set_is_Some _ (hist_entry rk col)).
      apply elem_of_hist_sets. exists col. eauto. }
    rewrite Hu in Hw. injection Hw as <-.
    apply last_set_elem, elem_of_hist_sets in Hu
      as (col' & Hcol' & Hcat' & Hhid' & Hid & ->).
    destruct (Huniq rk col') as [_ ->]; try done.
    apply has_histogram_spec. eauto.
  - destruct (last_set (col_id col)
                (map (fun c => (col_id c, hist_entry rk c)) _)) as [u|] eqn:Hu.
    + apply last_set_elem, elem_of_hist_sets in Hu
        as (col' & Hcol' & Hcat' & Hhid' & Hid & ->).
      destruct (Huniq rk col') as [_ ->]; try done; [|congruence].
      apply has_histogram_spec. eauto.
    + apply last_set_elem, list_elem_of_In, in_map_iff in Hw
        as (col' & [= Hid <-] & Hin).
      apply list_elem_of_In, list_elem_of_filter in Hin as [Hp Hin].
      apply andb_prop in Hp as [Hk' Hh']. apply negb_true_iff in Hh'.
      destruct (Huniq rk col') as [_ ->]; try done.
      apply has_histogram_spec. eauto.
Qed.

End HeaderCacheMoreFacts.

Section HeaderCacheMoreExamples.
Import JS Header Samples.

(** A second ranking with the same column id: the later ranking's
    order is the one in the cache. *)
Example later_ranking_wins :
  let other := mkRanking (Some [0; 1; 2]%nat) [col_n] in
  histCache (on_order_changed (new [ranking1; other] (Some true))) !! "n"
  = Some (Some (StatsOf [0; 1; 2]%nat "n")).
Proof. reflexivity. Qed.

Lemma order_change_entry_of_unique_column_witness :
  orderListener (new [ranking1] (Some true)) = true /\
  histCache (on_order_changed (new [ranking1] (Some true))) !! col_id col_c =
  Some (hist_entry ranking1 col_c).
Proof.
  split; [reflexivity|].
  apply (order_change_entry_of_unique_column
           (new [ranking1] (Some true)) ranking1 col_c eq_refl).
  - left.
  - right; left.
  - reflexivity.
  - intros rk' col' Hrk Hcol Hh Hid.
    apply list_elem_of_singleton in Hrk as ->. split; [reflexivity|].
    simpl in Hcol.
    repeat (apply elem_of_cons in Hcol as [-> | Hcol]; try discriminate Hid);
      [reflexivity | inversion Hcol].
Defined.

End HeaderCacheMoreExamples.

(* ===================================================================== *)
(** ** More on CompositeNumberColumn *)
(* ===================================================================== *)

Section CompositeNumberMoreFacts.
Import JS CompositeNumber.

Context {Row Child : Type}.
Variable string_to_number : string -> float.
Variable number_to_string : float -> string.
Variable compute : CompositeNumberColumn Child -> Row -> nat -> value.
Variable numberCompare : value -> value -> float.

Local Abbreviation is_missing := (CompositeNumber.is_missing string_to_number).
Local Abbreviation getValue := (CompositeNumber.getValue string_to_number compute).
Local Abbreviation getLabel :=
  (CompositeNumber.getLabel string_to_number number_to_string compute).
Local Abbreviation compare :=
  (CompositeNumber.compare string_to_number compute numberCompare).

(** X9: on a column that is not loaded, [compare] gives every pair of
    rows the same answer, that of [numberCompare(null, null)]: sorting
    by such a column cannot tell rows apart. *)
Theorem compare_not_loaded_is_constant c :
  isLoaded c = false ->
  forall a b aIndex bIndex,
    compare c a b aIndex bIndex = numberCompare VNull VNull.
Proof.
  intros Hl a b aIndex bIndex. unfold CompositeNumber.compare.
  now rewrite !(getValue_unloaded string_to_number compute c _ _ Hl).
Qed.

(** X10: on a loaded column a boolean result of the reduction is handed
    out and labelled as it is, and so is a string that reads as a number,
    while a string that does not is replaced by the substitute. *)
Theorem getValue_passes_booleans_and_numeric_strings c row index :
  isLoaded c = true ->
  (forall b, compute c row index = VBool b ->
     getValue c row index = VBool b /\
     getLabel c row index = (if b then "true" else "false")) /\
  (forall s, compute c row index = VString s ->
     is_nan (string_to_number s) = false ->
     getValue c row index = VString s /\ getLabel c row index = s) /\
  (forall s, compute c row index = VString s ->
     is_nan (string_to_number s) = true ->
     getValue c row index = VNumber (missingValue c)).
Proof.
  intros Hl.
  pose proof (getValue_loaded string_to_number compute c row index Hl) as Hv.
  unfold CompositeNumber.getLabel. rewrite Hl, Hv. simpl.
  split; [|split].
  - intros b ->. rewrite is_missing_bool. now destruct b.
  - intros s -> Hs. rewrite is_missing_string, Hs. split; reflexivity.
  - intros s -> Hs. now rewrite is_missing_string, Hs.
Qed.

End CompositeNumberMoreFacts.

Section CompositeNumberMoreExamples.
Import JS CompositeNumber Samples.

Lemma compare_not_loaded_is_constant_witness :
  isLoaded (setLoaded false (column desc_plain)) = false /\
  compare string_to_number compute_a numberCompare
          (setLoaded false (column desc_plain)) row_a10 row_aNaN 0 1 =
  numberCompare VNull VNull.
Proof.
  split; [reflexivity|].
  apply (compare_not_loaded_is_constant string_to_number compute_a
           numberCompare (setLoaded false (column desc_plain)) eq_refl).
Defined.

Lemma getValue_passes_booleans_and_numeric_strings_witness :
  isLoaded (column desc_plain) = true /\
  getValue string_to_number compute_a (column desc_plain) row_atrue 0 =
    VBool true /\
  getLabel string_to_number number_to_string compute_a
           (column desc_plain) row_atrue 0 = "true".
Proof.
  split; [reflexivity|].
  destruct (getValue_passes_booleans_and_numeric_strings string_to_number
              number_to_string compute_a (column desc_plain) row_atrue 0
              eq_refl) as (Hbool & _).
  apply (Hbool true). reflexivity.
Defined.

End CompositeNumberMoreExamples.

(* ===================================================================== *)
(** ** More on lineup.ts: deriveColors, jumpToNearest, update *)
(* ===================================================================== *)

Section DeriveColorsFacts.
Import LineUp.

Lemma is_number_desc_set_color c col :
  is_number_desc (set_color c col) = is_number_desc col.
Proof. reflexivity. Qed.

Lemma numbers_before_0 cols : numbers_before 0 cols = 0.
Proof. reflexivity. Qed.

Lemma numbers_before_S i col cols :
  numbers_before (S i) (col :: cols) =
  (if is_number_desc col then 1 else 0) + numbers_before i cols.
Proof.
  unfold numbers_before. simpl. now destruct (is_number_desc col).
Qed.

Lemma deriveColors_from_lookup colors cols i col :
  cols !! i = Some col ->
  deriveColors_from colors cols !! i =
  Some (if is_number_desc col
        then set_color (colors !! numbers_before i cols) col
        else col).
Proof.
  revert colors i. induction cols as [|c cols IH]; intros colors i; [discriminate|].
  destruct i as [|i]; simpl.
  - intros [= ->]. destruct (is_number_desc col); [|reflexivity].
    simpl. now rewrite head_lookup.
  - intros Hi. rewrite numbers_before_S.
    destruct (is_number_desc c); simpl.
    + rewrite (IH _ _ Hi). now rewrite lookup_tail.
    + now rewrite (IH _ _ Hi).
Qed.

Lemma deriveColors_from_length colors cols :
  length (deriveColors_from colors cols) = length cols.
Proof.
  revert colors. induction cols as [|c cols IH]; intros colors; [reflexivity|].
  simpl. destruct (is_number_desc c); simpl; now rewrite IH.
Qed.

(** On descriptions that are different objects: [deriveColors] keeps the
    number, order, types and labels of the columns and every column that is not of type [number] as it is;
    the column at position [i], if of type [number], gets the colour
    number [n] of the palette, [n] being the count of [number] columns
    before it, whatever colour it had, and [undefined] once the palette
    is used up. *)
Theorem deriveColors_assigns_by_position category10 cols :
  length (deriveColors category10 cols) = length cols /\
  forall i col, cols !! i = Some col ->
    deriveColors category10 cols !! i =
    Some (if is_number_desc col
          then mkColumnDesc (cd_type col) (cd_label col)
                            (category10 !! numbers_before i cols)
          else col).
Proof.
  split; [apply deriveColors_from_length|].
  intros i col Hi. unfold deriveColors.
  now rewrite (deriveColors_from_lookup _ _ _ _ Hi).
Qed.

Lemma deriveColors_from_idem colors cols :
  deriveColors_from colors (deriveColors_from colors cols) =
  deriveColors_from colors cols.
Proof.
  revert colors. induction cols as [|c cols IH]; intros colors; [reflexivity|].
  simpl. destruct (is_number_desc c) eqn:E; simpl.
  - rewrite is_number_desc_set_color, E. now rewrite IH.
  - rewrite E. now rewrite IH.
Qed.

(** X12: deriving the colours again changes nothing: every call starts
    from the full palette and overwrites what the last one set. *)
Theorem deriveColors_idempotent category10 cols :
  deriveColors category10 (deriveColors category10 cols) =
  deriveColors category10 cols.
Proof. apply deriveColors_from_idem. Qed.

Lemma numbers_before_mono i j cols coli :
  i < j -> cols !! i = Some coli -> is_number_desc coli = true ->
  numbers_before i cols < numbers_before j cols.
Proof.
  revert i j. induction cols as [|c cols IH]; intros i j Hij Hi Hn; [discriminate|].
  destruct j as [|j]; [lia|]. destruct i as [|i].
  - injection Hi as ->. rewrite numbers_before_S, Hn, numbers_before_0. lia.
  - rewrite !numbers_before_S. simpl in Hi.
    pose proof (IH i j ltac:(lia) Hi Hn). lia.
Qed.

(** X13: when the palette has no repeated colour, two different
    [number] columns that both get a colour get different ones. *)
Theorem deriveColors_distinct_colours category10 cols i j ci cj x y :
  NoDup category10 ->
  i <> j ->
  deriveColors category10 cols !! i = Some ci ->
  deriveColors category10 cols !! j = Some cj ->
  is_number_desc ci = true -> is_number_desc cj = true ->
  cd_color ci = Some x -> cd_color cj = Some y ->
  x <> y.
Proof.
  intros Hnd Hij Hi Hj Hni Hnj Hx Hy.
  assert (is_Some (cols !! i)) as [ci0 Hi0].
  { apply lookup_lt_is_Some. rewrite <- (deriveColors_from_length category10).
    apply lookup_lt_is_Some. unfold deriveColors in Hi. eauto. }
  assert (is_Some (cols !! j)) as [cj0 Hj0].
  { apply lookup_lt_is_Some. rewrite <- (deriveColors_from_length category10).
    apply lookup_lt_is_Some. unfold deriveColors in Hj. eauto. }
  unfold deriveColors in Hi, Hj.
  rewrite (deriveColors_from_lookup _ _ _ _ Hi0) in Hi.
  rewrite (deriveColors_from_lookup _ _ _ _ Hj0) in Hj.
  injection Hi as <-. injection Hj as <-.
  destruct (is_number_desc ci0) eqn:Ei;
    [|rewrite Ei in Hni; discriminate Hni].
  destruct (is_number_desc cj0) eqn:Ej;
    [|rewrite Ej in Hnj; discriminate Hnj].
  simpl in Hx, Hy. intros <-.
  pose proof (NoDup_lookup _ _ _ _ Hnd Hx Hy) as Heq.
  destruct (Nat.lt_total i j) as [Hlt | [Heq' | Hgt]]; [|done|].
  - pose proof (numbers_before_mono _ _ _ _ Hlt Hi0 Ei). lia.
  - pose proof (numbers_before_mono _ _ _ _ Hgt Hj0 Ej). lia.
Qed.

End DeriveColorsFacts.

Section DeriveColorsExamples.
Import LineUp Samples.

Example deriveColors_descs3 :
  deriveColors category10 descs3 =
  [mkColumnDesc "string" "name" None;
   mkColumnDesc "number" "a" (Some "#1f77b4");
   mkColumnDesc "number" "b" (Some "#ff7f0e")].
Proof. reflexivity. Qed.

(** With the palette used up, a colour is overwritten by [undefined]. *)
Example deriveColors_palette_used_up :
  deriveColors ["#1f77b4"] (tail descs3 ++ [mkColumnDesc "number" "c" (Some "blue")])
  = [mkColumnDesc "number" "a" (Some "#1f77b4");
     mkColumnDesc "number" "b" None;
     mkColumnDesc "number" "c" None].
Proof. reflexivity. Qed.

Lemma deriveColors_distinct_colours_witness :
  NoDup category10 /\ "#1f77b4" <> "#ff7f0e".
Proof.
  assert (NoDup category10) as Hnd
    by (apply (bool_decide_unpack (NoDup category10)); vm_compute; exact I).
  split; [exact Hnd|].
  apply (deriveColors_distinct_colours category10 descs3 1 2
           (mkColumnDesc "number" "a" (Some "#1f77b4"))
           (mkColumnDesc "number" "b" (Some "#ff7f0e")));
    try reflexivity; [exact Hnd | lia].
Defined.

End DeriveColorsExamples.

Section JumpToNearestFacts.
Import LineUp.

Lemma indexOf_range d order :
  (-1 <= indexOf d order < Z.of_nat (length order))%Z.
Proof.
  induction order as [|x order IH]; simpl; [lia|].
  destruct (decide (x = d)); [lia|].
  destruct (indexOf d order <? 0)%Z eqn:E; lia.
Qed.

Lemma indexOf_absent d order : indexOf d order = (-1)%Z <-> d ∉ order.
Proof.
  induction order as [|x order IH]; simpl.
  - split; [intros _; apply not_elem_of_nil | reflexivity].
  - rewrite not_elem_of_cons. destruct (decide (x = d)) as [->|Hne].
    + split; [discriminate | intros [H _]; now destruct H].
    + pose proof (indexOf_range d order) as Hrange.
      destruct (indexOf d order <? 0)%Z eqn:E.
      * apply Z.ltb_lt in E. split; [intros _|reflexivity].
        split; [congruence|]. apply IH. lia.
      * apply Z.ltb_ge in E. split; [lia|]. intros [_ Hd]. apply IH in Hd. lia.
Qed.

(** At the position [indexOf] gives stands the index looked for. *)
Lemma at_index_indexOf d order :
  d ∈ order -> at_index order (indexOf d order) = Some d.
Proof.
  unfold at_index. induction order as [|x order IH]; [intros H; inversion H|].
  intros Hin. simpl. destruct (decide (x = d)) as [->|Hne]; [reflexivity|].
  apply elem_of_cons in Hin as [-> | Hin]; [done|].
  specialize (IH Hin). pose proof (indexOf_range d order).
  destruct (indexOf d order <? 0)%Z eqn:E; [discriminate IH|].
  apply Z.ltb_ge in E.
  replace (indexOf d order + 1 <? 0)%Z with false by (symmetry; apply Z.ltb_ge; lia).
  replace (Z.to_nat (indexOf d order + 1)) with (S (Z.to_nat (indexOf d order)))
    by lia.
  exact IH.
Qed.

(** The first element of the ascending arrangement of a list is its
    least element. *)
Lemma head_sort_ascending l :
  l <> [] ->
  exists m, head (sort_ascending l) = Some m /\ m ∈ l /\
            forall x, x ∈ l -> (m <= x)%Z.
Proof.
  intros Hne. unfold sort_ascending.
  pose proof (merge_sort_Permutation Z.le l) as Hperm.
  pose proof (StronglySorted_merge_sort Z.le l) as Hsorted.
  destruct (merge_sort Z.le l) as [|m s].
  - apply Permutation_nil_l in Hperm. congruence.
  - exists m. split; [reflexivity|]. split.
    + rewrite <- Hperm. left.
    + intros x Hx. rewrite <- Hperm in Hx.
      apply elem_of_cons in Hx as [-> | Hx]; [lia|].
      apply StronglySorted_inv in Hsorted as [_ Hall].
      rewrite Forall_forall in Hall. now apply Hall.
Qed.

(** What a jump that takes place asks for. *)
Lemma jumpToNearest_Jumped rankings dataIndices jump :
  jumpToNearest rankings dataIndices = Jumped jump ->
  exists order p d,
    head rankings = Some (Some order) /\
    scroll_length jump = length order /\
    scroll_index jump = Some p /\
    d ∈ dataIndices /\ p = indexOf d order /\
    (forall d', d' ∈ dataIndices -> (p <= indexOf d' order)%Z) /\
    hover_dataIndex jump = at_index order p.
Proof.
  unfold jumpToNearest.
  destruct dataIndices as [|d0 ds]; [discriminate|].
  destruct rankings as [|[order|] rest]; simpl; try discriminate.
  intros [= <-]. simpl.
  destruct (head_sort_ascending
              (indexOf d0 order :: map (fun d => indexOf d order) ds))
    as (m & Hhead & Hin & Hmin); [discriminate|].
  rewrite Hhead. simpl.
  change (indexOf d0 order :: map (fun d => indexOf d order) ds)
    with (map (fun d => indexOf d order) (d0 :: ds)) in Hin, Hmin.
  apply list_elem_of_In, in_map_iff in Hin as (d & <- & Hd).
  exists order, (indexOf d order), d.
  repeat (split; [reflexivity|]).
  split; [now apply list_elem_of_In|]. split; [reflexivity|].
  split; [|reflexivity].
  intros d' Hd'. apply Hmin, list_elem_of_In, in_map_iff.
  exists d'. split; [reflexivity | now apply list_elem_of_In].
Qed.

(** X14: [jumpToNearest] returns without doing anything exactly when no
    index is given or there is no ranking; it throws, before it calls the
    renderer, exactly when an index is given and the order of the first
    ranking is [null]; otherwise it scrolls, within the length of the
    first ranking's order, to the least of the positions the given
    indices have in that order, and hovers the row at that position. *)
Theorem jumpToNearest_scrolls_to_least_position rankings dataIndices :
  (jumpToNearest rankings dataIndices = NoJump <->
   dataIndices = [] \/ rankings = []) /\
  (jumpToNearest rankings dataIndices = ThrowsTypeError <->
   dataIndices <> [] /\ head rankings = Some None) /\
  (forall jump, jumpToNearest rankings dataIndices = Jumped jump ->
   exists order p d,
     head rankings = Some (Some order) /\
     scroll_length jump = length order /\
     scroll_index jump = Some p /\
     d ∈ dataIndices /\ p = indexOf d order /\
     (forall d', d' ∈ dataIndices -> (p <= indexOf d' order)%Z) /\
     hover_dataIndex jump = at_index order p).
Proof.
  split; [|split; [|apply jumpToNearest_Jumped]]; unfold jumpToNearest.
  - destruct dataIndices as [|d0 ds]; [split; [now left | reflexivity]|].
    destruct rankings as [|[order|] rest]; simpl.
    + split; [now right | reflexivity].
    + split; [discriminate | intros [[=] | [=]]].
    + split; [discriminate | intros [[=] | [=]]].
  - destruct dataIndices as [|d0 ds].
    { split; [discriminate | intros [H _]; now destruct H]. }
    destruct rankings as [|[order|] rest]; simpl.
    + split; [discriminate | intros [_ [=]]].
    + split; [discriminate | intros [_ [=]]].
    + split; [intros _; split; [discriminate | reflexivity] | reflexivity].
Qed.

(** X15: if one of the given indices is not in the order, the scroll
    position is -1 and the hovered row is [undefined]; if all of them
    are, the hovered row is one of them, the one that comes first in the
    order. *)
Theorem jumpToNearest_missing_index rankings dataIndices jump order :
  jumpToNearest rankings dataIndices = Jumped jump ->
  head rankings = Some (Some order) ->
  ((exists d, d ∈ dataIndices /\ d ∉ order) ->
   scroll_index jump = Some (-1)%Z /\ hover_dataIndex jump = None) /\
  ((forall d, d ∈ dataIndices -> d ∈ order) ->
   exists d, d ∈ dataIndices /\ hover_dataIndex jump = Some d /\
             scroll_index jump = Some (indexOf d order) /\
             forall d', d' ∈ dataIndices ->
                        (indexOf d order <= indexOf d' order)%Z).
Proof.
  intros Hjump Horder.
  destruct (jumpToNearest_Jumped rankings dataIndices jump Hjump)
    as (order' & p & d & Horder' & _ & Hp & Hd & -> & Hmin & Hhover).
  assert (order' = order) as -> by congruence.
  split.
  - intros (d' & Hd' & Habsent).
    apply indexOf_absent in Habsent. specialize (Hmin d' Hd').
    pose proof (indexOf_range d order).
    assert (indexOf d order = (-1)%Z) as Heq by lia.
    rewrite Hp, Hhover, Heq. split; reflexivity.
  - intros Hall. exists d. split; [exact Hd|].
    split; [|split; [exact Hp | exact Hmin]].
    rewrite Hhover. apply at_index_indexOf. now apply Hall.
Qed.

End JumpToNearestFacts.

Section JumpToNearestExamples.
Import LineUp.

Example jumpToNearest_example :
  jumpToNearest [Some [4; 2; 7; 0]%nat; Some [0; 2; 4; 7]%nat] [0; 7]%nat =
  Jumped (mkJump 4 (Some 2%Z) (Some 7%nat)).
Proof. reflexivity. Qed.

Example jumpToNearest_filtered_out :
  jumpToNearest [Some [4; 2; 7; 0]%nat] [0; 5]%nat =
  Jumped (mkJump 4 (Some (-1)%Z) None).
Proof. reflexivity. Qed.

Example jumpToNearest_null_order :
  jumpToNearest [None; Some [4; 2; 7; 0]%nat] [0]%nat = ThrowsTypeError /\
  jumpToNearest [None] [] = NoJump.
Proof. split; reflexivity. Qed.

Lemma jumpToNearest_missing_index_witness :
  jumpToNearest [Some [4; 2; 7; 0]%nat] [0; 5]%nat =
    Jumped (mkJump 4 (Some (-1)%Z) None) /\
  scroll_index (mkJump 4 (Some (-1)%Z) None) = Some (-1)%Z /\
  hover_dataIndex (mkJump 4 (Some (-1)%Z) None) = None.
Proof.
  split; [reflexivity|].
  destruct (jumpToNearest_missing_index [Some [4; 2; 7; 0]%nat] [0; 5]%nat
              (mkJump 4 (Some (-1)%Z) None) [4; 2; 7; 0]%nat
              eq_refl eq_refl) as (Hmissing & _).
  apply Hmissing. exists 5%nat. split.
  - right; left.
  - intros Hin. repeat (apply elem_of_cons in Hin as [[=] | Hin]).
    inversion Hin.
Defined.

End JumpToNearestExamples.

Section UpdateFacts.
Import LineUp.

(** A listener whose counter stands at [n] fires [UPDATE_FINISHED] in the
    course of [k] render-finished events exactly when the [n]-th of them
    comes, and then never again. *)
Lemma renderFinished_times_counter k flag n :
  renderFinished_times k (mkUpdateState flag (Some n)) =
  (mkUpdateState flag (Some (n - Z.of_nat k)%Z),
   if decide (0 < n <= Z.of_nat k)%Z then [UPDATE_FINISHED] else []).
Proof.
  revert n. induction k as [|k IH]; intros n.
  - simpl. rewrite Z.sub_0_r. now rewrite decide_False by lia.
  - cbn [renderFinished_times renderFinished waitForBodyRenderer
         isUpdateInitialized].
    rewrite IH. f_equal; [f_equal; f_equal; lia|].
    destruct (n - 1 =? 0)%Z eqn:E.
    + apply Z.eqb_eq in E.
      rewrite decide_False by lia. now rewrite decide_True by lia.
    + apply Z.eqb_neq in E. simpl.
      destruct (decide (0 < n - 1 <= Z.of_nat k)%Z);
        [now rewrite decide_True by lia | now rewrite decide_False by lia].
Qed.

(** X16: [update()] fires [updateStart] at once, and in the course of
    the render-finished events that follow it [updateFinished] exactly
    once: with the third such event after the first [update()], with
    the first one after every later [update()], whatever the listener
    of the previous call had counted; before any [update()] nothing is
    fired. *)
Theorem update_fires_finished_once s k :
  (let wait := if isUpdateInitialized s then 1 else 3 in
   (update s).2 ++ (renderFinished_times k (update s).1).2 =
   UPDATE_START :: (if decide (wait <= k) then [UPDATE_FINISHED] else [])) /\
  isUpdateInitialized (update s).1 = true /\
  (renderFinished_times k initial).2 = [].
Proof.
  split; [|split].
  - unfold update. cbn [fst snd]. rewrite renderFinished_times_counter.
    cbn [snd app]. f_equal.
    destruct (isUpdateInitialized s).
    + destruct (decide (1 <= k)).
      * now rewrite decide_True by lia.
      * now rewrite decide_False by lia.
    + destruct (decide (3 <= k)).
      * now rewrite decide_True by lia.
      * now rewrite decide_False by lia.
  - reflexivity.
  - induction k as [|k IH]; [reflexivity|].
    cbn [renderFinished_times renderFinished waitForBodyRenderer initial].
    change (mkUpdateState false None) with initial.
    destruct (renderFinished_times k initial) as [s2 f2]. exact IH.
Qed.

Example update_first_and_second :
  let s1 := (update initial).1 in
  let s1' := (renderFinished_times 5 s1).1 in
  (renderFinished_times 2 s1).2 = [] /\
  (renderFinished_times 5 s1).2 = [UPDATE_FINISHED] /\
  (renderFinished_times 5 (update s1').1).2 = [UPDATE_FINISHED].
Proof. repeat split. Qed.

End UpdateFacts.

(* ===================================================================== *)
(** ** The cache over the life of a renderer *)
(* ===================================================================== *)

Section HeaderReachableFacts.
Import JS Header.

Lemma update_keeps_options r :
  histograms (update r) = histograms r /\
  orderListener (update r) = orderListener r.
Proof. unfold update. now destruct (_ && _ && _). Qed.

(** The listener is registered exactly when histograms are on, and
    without histograms nothing is ever cached. *)
Lemma Reachable_invariant r :
  Reachable r ->
  orderListener r = histograms r /\ (histograms r = false -> histCache r = ∅).
Proof.
  induction 1 as [rankings opt | rankings r _ [IH1 IH2] | rankings r _ [IH1 IH2]
                  | r _ [IH1 IH2] | r _ [IH1 IH2]].
  - split; [reflexivity|]. intros _. reflexivity.
  - split; [reflexivity | exact IH2].
  - split; [exact IH1 | exact IH2].
  - unfold on_order_changed. destruct (orderListener r) eqn:Hl.
    + destruct (update_keeps_options (updateHist r)) as [Hh Ho].
      split; [rewrite Hh, Ho; simpl; congruence|].
      rewrite Hh. simpl. intros Hoff. congruence.
    + split; [congruence | exact IH2].
  - destruct (update_keeps_options r) as [Hh Ho].
    split; [rewrite Hh, Ho; exact IH1|].
    rewrite Hh. intros Hoff. unfold update. rewrite Hoff. simpl. now apply IH2.
Qed.

(** C8 (amended): the cache is keyed by column id, and on every order
    change every cached entry of a visible [NumberColumn] or categorical
    column of a ranking is replaced by what is computed afresh from the
    current order of a ranking that shows a column of that id: the
    statistics handle of a number column, the histogram handle of a
    categorical one, or [null] when that ranking has no order. *)
Theorem order_change_replaces_cached_entries r :
  Reachable r ->
  forall rk col,
    rk ∈ getRankings r -> col ∈ flatColumns rk -> has_histogram col = true ->
    is_Some (histCache r !! col_id col) ->
    exists rk' col',
      rk' ∈ getRankings r /\ col' ∈ flatColumns rk' /\
      isHidden col' = false /\ col_id col' = col_id col /\
      ((isNumberColumnInstance col' = true /\
        histCache (on_order_changed r) !! col_id col =
          Some (stats_entry rk' col')) \/
       (isCategoricalColumn col' = true /\
        histCache (on_order_changed r) !! col_id col =
          Some (hist_entry rk' col'))).
Proof.
  intros Hr rk col Hrk Hcol Hh [e He].
  destruct (Reachable_invariant r Hr) as [Hl Hoff].
  destruct (histograms r) eqn:Hhist.
  - destruct (order_change_overwrites_visible_entries r Hl) as [Hfresh _].
    now apply (Hfresh rk col).
  - rewrite (Hoff eq_refl), lookup_empty in He. discriminate He.
Qed.

End HeaderReachableFacts.

Section HeaderReachableExamples.
Import JS Header Samples.

(** The claim of C8 fails as stated: with histograms on, the entry of
    the visible number column has been cached; the ranking loses its
    order, and the order change replaces the cached handle by [null],
    not by a statistics handle. *)
Lemma order_change_without_order_caches_null :
  Reachable renderer_order_lost /\
  col_n ∈ flatColumns ranking_unordered /\
  histCache renderer_order_lost !! "n" = Some (Some (StatsOf [1; 2; 0]%nat "n")) /\
  histCache (on_order_changed renderer_order_lost) !! "n" = Some None /\
  ~ (forall r rk col,
       Reachable r ->
       rk ∈ getRankings r -> col ∈ flatColumns rk -> has_histogram col = true ->
       is_Some (histCache r !! col_id col) ->
       exists handle,
         histCache (on_order_changed r) !! col_id col = Some (Some handle)).
Proof.
  assert (Reachable renderer_order_lost) as Hr
    by (apply reach_with_rankings, reach_order_changed, reach_new).
  split; [exact Hr|]. split; [left|]. split; [reflexivity|].
  split; [reflexivity|].
  intros H.
  destruct (H renderer_order_lost ranking_unordered col_n Hr) as [h Hh].
  - left.
  - left.
  - reflexivity.
  - eexists. reflexivity.
  - discriminate Hh.
Qed.

Lemma order_change_replaces_cached_entries_witness :
  Reachable (on_order_changed (new [ranking1] (Some true))) /\
  is_Some (histCache (on_order_changed (new [ranking1] (Some true)))
             !! col_id col_n) /\
  exists rk' col',
    rk' ∈ getRankings (on_order_changed (new [ranking1] (Some true))) /\
    col' ∈ flatColumns rk' /\ isHidden col' = false /\
    col_id col' = col_id col_n /\
    ((isNumberColumnInstance col' = true /\
      histCache (on_order_changed (on_order_changed (new [ranking1] (Some true))))
        !! col_id col_n = Some (stats_entry rk' col')) \/
     (isCategoricalColumn col' = true /\
      histCache (on_order_changed (on_order_changed (new [ranking1] (Some true))))
        !! col_id col_n = Some (hist_entry rk' col'))).
Proof.
  assert (Reachable (on_order_changed (new [ranking1] (Some true)))) as Hr
    by (apply reach_order_changed, reach_new).
  split; [exact Hr|]. split; [eexists; reflexivity|].
  apply (order_change_replaces_cached_entries _ Hr ranking1 col_n).
  - left.
  - left.
  - reflexivity.
  - eexists. reflexivity.
Defined.

End HeaderReachableExamples.

(* ===================================================================== *)
(** ** deriveColors on shared descriptor objects *)
(* ===================================================================== *)

Section DeriveColorsHeapFacts.
Import LineUp.

Lemma deriveColors_heap_other colors columns heap r :
  r ∉ columns -> deriveColors_heap colors columns heap !! r = heap !! r.
Proof.
  revert colors heap. induction columns as [|r0 rest IH]; intros colors heap Hr;
    [reflexivity|].
  apply not_elem_of_cons in Hr as [Hne Hr]. simpl.
  destruct (heap !! r0) as [col0|] eqn:E0; [|now apply IH].
  destruct (is_number_desc col0); [|now apply IH].
  rewrite IH by exact Hr. now apply lookup_insert_ne.
Qed.

Lemma is_number_at_insert heap r0 col c r :
  heap !! r0 = Some col ->
  is_number_at (<[r0 := set_color c col]> heap) r = is_number_at heap r.
Proof.
  intros H0. unfold is_number_at. destruct (decide (r0 = r)) as [<-|Hne].
  - now rewrite lookup_insert_eq, H0.
  - now rewrite lookup_insert_ne.
Qed.

Lemma numbers_before_at_ext h1 h2 i columns :
  (forall r, is_number_at h1 r = is_number_at h2 r) ->
  numbers_before_at h1 i columns = numbers_before_at h2 i columns.
Proof.
  intros Hext. revert i. induction columns as [|r rest IH]; intros [|i];
    try reflexivity.
  simpl. now rewrite Hext, IH.
Qed.

Lemma deriveColors_heap_lookup colors columns heap i r col :
  NoDup columns ->
  columns !! i = Some r -> heap !! r = Some col ->
  deriveColors_heap colors columns heap !! r =
  Some (if is_number_desc col
        then set_color (colors !! numbers_before_at heap i columns) col
        else col).
Proof.
  intros Hnd. revert colors heap i.
  induction Hnd as [|r0 rest Hnotin Hnd IH]; intros colors heap i;
    [discriminate|].
  destruct i as [|i]; simpl.
  - intros [= ->] Hcol. rewrite Hcol.
    destruct (is_number_desc col).
    + rewrite deriveColors_heap_other by exact Hnotin.
      now rewrite lookup_insert_eq, head_lookup.
    + now rewrite deriveColors_heap_other by exact Hnotin.
  - intros Hi Hcol.
    assert (r0 <> r) as Hne.
    { intros ->. apply Hnotin. eapply list_elem_of_lookup_2. exact Hi. }
    unfold is_number_at at 1.
    destruct (heap !! r0) as [col0|] eqn:E0; [|now apply IH].
    destruct (is_number_desc col0) eqn:En; [|now apply IH].
    rewrite (IH _ _ i Hi) by now rewrite lookup_insert_ne.
    rewrite lookup_tail.
    rewrite (numbers_before_at_ext _ heap)
      by (intros r'; now apply is_number_at_insert).
    reflexivity.
Qed.

(** X11: [deriveColors] changes the descriptor objects in place: an
    object that is not in the array is left as it is; when no object
    stands in the array twice, the object at position [i] is left as it
    is if its type is not [number], and otherwise keeps its type and
    gets the colour number [n] of the palette, [n] being the count of
    [number] objects before position [i], whatever colour it had, and
    [undefined] once the palette is used up. *)
Theorem deriveColors_in_place_assigns_by_position category10 columns heap :
  NoDup columns ->
  (forall r, r ∉ columns ->
     deriveColors_heap category10 columns heap !! r = heap !! r) /\
  (forall i r col, columns !! i = Some r -> heap !! r = Some col ->
     deriveColors_heap category10 columns heap !! r =
     Some (if is_number_desc col
           then mkColumnDesc (cd_type col) (cd_label col)
                  (category10 !! numbers_before_at heap i columns)
           else col)).
Proof.
  intros Hnd. split.
  - intros r. apply deriveColors_heap_other.
  - intros i r col Hi Hcol.
    now rewrite (deriveColors_heap_lookup _ _ _ _ _ _ Hnd Hi Hcol).
Qed.

End DeriveColorsHeapFacts.

Section DeriveColorsHeapExamples.
Import LineUp Samples.

Example deriveColors_heap3 :
  deriveColors_heap category10 [0; 1; 2]%nat heap3 =
  {[ 0%nat := mkColumnDesc "string" "name" None;
     1%nat := mkColumnDesc "number" "a" (Some "#1f77b4");
     2%nat := mkColumnDesc "number" "b" (Some "#ff7f0e") ]}.
Proof. apply map_eq. intros [|[|[|i]]]; reflexivity. Qed.

(** The same object at two positions ends with the later colour. *)
Example deriveColors_heap_same_object_twice :
  deriveColors_heap category10 [1; 1]%nat heap3 !! 1%nat =
  Some (mkColumnDesc "number" "a" (Some "#ff7f0e")).
Proof. reflexivity. Qed.

Lemma deriveColors_in_place_assigns_by_position_witness :
  NoDup [0; 1; 2]%nat /\
  deriveColors_heap category10 [0; 1; 2]%nat heap3 !! 2%nat =
  Some (mkColumnDesc "number" "b" (Some "#ff7f0e")).
Proof.
  assert (NoDup [0; 1; 2]%nat) as Hnd
    by (apply (bool_decide_unpack (NoDup [0; 1; 2]%nat)); vm_compute; exact I).
  split; [exact Hnd|].
  destruct (deriveColors_in_place_assigns_by_position category10
              [0; 1; 2]%nat heap3 Hnd) as [_ Hpos].
  apply (Hpos 2%nat 2%nat (mkColumnDesc "number" "b" None)); reflexivity.
Defined.

End DeriveColorsHeapExamples.
